(** * gopenpgp: session keys, integrity-checking reader and verification handle

    A shallow embedding of [crypto/sessionkey.go] and of the verification
    handle (the [verifyHandle] file of package [crypto]), with the properties of the
    specification stated and proved over it.

    Conventions of the embedding:
    - a Go [error] value is an [option error], [None] being [nil];
    - a Go pointer that may be [nil] is an [option];
    - a pair [(x, err)] returned by a Go function is a Rocq pair, or a sum
      when the function returns the one or the other;
    - [[]byte] is [list byte];
    - code that mutates objects behind interfaces threads an explicit store;
    - loops whose termination depends on a foreign reader take a [fuel]
      argument and return [None] when it runs out. *)

From Stdlib Require Import ZArith.
From Stdlib.Strings Require Import Byte.
From stdpp Require Import gmap strings list fin_maps.

Local Open Scope Z_scope.

(** ** Go prelude *)

#[global] Instance byte_eq_decision : EqDecision byte := byte_eq_dec.

(** Go [error] values met in the two files.  [io_EOF] is the sentinel
    [io.EOF]; [errors_New] and [errors_Wrap] are the constructors of
    github.com/pkg/errors (and [fmt.Errorf]); [StructuralError] is
    [pgpErrors.StructuralError]; [EngineError] stands for any other error
    value produced by the OpenPGP engine. *)
Inductive error : Type :=
  | io_EOF
  | errors_New (msg : string)
  | errors_Wrap (cause : error) (msg : string)
  | StructuralError (msg : string)
  | EngineError (msg : string).

#[global] Instance error_eq_dec : EqDecision error.
Proof. solve_decision. Defined.

(** [e == io.EOF] on Go error values. *)
Definition is_EOF (e : option error) : bool :=
  match e with
  | Some io_EOF => true
  | _ => false
  end.

(** The result of one [Read(buf)]: the [n] bytes stored in [buf[0:n]] and
    the error. *)
Definition ReadResult : Type := list byte * option error.

(** ** Engine constants *)

(** The engine's [packet.CipherFunction] codes (a [uint8], the RFC 4880
    symmetric algorithm identifiers) and their key sizes in bytes,
    [CipherFunction.KeySize]. *)
Module packet.
Definition CipherFunction : Type := Z.
Definition Cipher3DES : CipherFunction := 2.
Definition CipherCAST5 : CipherFunction := 3.
Definition CipherAES128 : CipherFunction := 7.
Definition CipherAES192 : CipherFunction := 8.
Definition CipherAES256 : CipherFunction := 9.

Definition KeySize (cipher : CipherFunction) : nat :=
  if decide (cipher = CipherCAST5) then 16%nat
  else if decide (cipher = CipherAES128) then 16%nat
  else if decide (cipher = CipherAES192) then 24%nat
  else if decide (cipher = Cipher3DES) then 24%nat
  else if decide (cipher = CipherAES256) then 32%nat
  else 0%nat.
End packet.

(** Modelled from the spec: the declarations of package [constants] are not
    among the sources; the specification lists the algorithm identifiers as
    string constants for triple-DES (two aliases), CAST5 and AES-128/192/256. *)
Module constants.
Definition ThreeDES : string := "3des".
Definition TripleDES : string := "tripledes".
Definition CAST5 : string := "cast5".
Definition AES128 : string := "aes128".
Definition AES192 : string := "aes192".
Definition AES256 : string := "aes256".
End constants.

(** ** Types of package crypto declared in other files *)

(** Modelled from the spec: the declarations of [KeyRing],
    [VerificationContext] and [SigningContext] are not among the sources.  A
    key ring exposes a set of verifier identities; a context is a name to be
    carried as a critical notation. *)
Record KeyRing : Type := { entities : list Z }.
Record VerificationContext : Type := { Value : string }.
Record SigningContext : Type := { SignValue : string }.

(** ** crypto/sessionkey.go *)

Module SessionKeys.

(** [type SessionKey struct]. *)
Record SessionKey : Type := {
  V6 : bool;
  Key : list byte;
  Algo : string
}.

(** [var symKeyAlgos = map[string]packet.CipherFunction{...}]. *)
Definition symKeyAlgos : gmap string packet.CipherFunction :=
  <[constants.ThreeDES := packet.Cipher3DES]>
  (<[constants.TripleDES := packet.Cipher3DES]>
  (<[constants.CAST5 := packet.CipherCAST5]>
  (<[constants.AES128 := packet.CipherAES128]>
  (<[constants.AES192 := packet.CipherAES192]>
  (<[constants.AES256 := packet.CipherAES256]> ∅))))).

(** [func (sk *SessionKey) GetCipherFunc() (packet.CipherFunction, error)]. *)
Definition GetCipherFunc (sk : SessionKey) : packet.CipherFunction * option error :=
  if V6 sk then (0, None)
  else match symKeyAlgos !! Algo sk with
       | None =>
           (0, Some (errors_New ("gopenpgp: unsupported cipher function: " +:+ Algo sk)))
       | Some cf => (cf, None)
       end.

(** [func NewSessionKeyFromToken(token []byte, algo string) *SessionKey]. *)
Definition NewSessionKeyFromToken (token : list byte) (algo : string) : SessionKey :=
  {| Key := token; Algo := algo; V6 := bool_decide (algo = "") |}.

(** [func (sk *SessionKey) checkSize() error]. *)
Definition checkSize (sk : SessionKey) : option error :=
  if V6 sk then
    if decide (length (Key sk) = 0%nat)
    then Some (errors_New "empty session key")
    else None
  else
    match symKeyAlgos !! Algo sk with
    | None => Some (errors_New "unknown symmetric key algorithm")
    | Some cf =>
        if decide (packet.KeySize cf ≠ length (Key sk))
        then Some (errors_New "wrong session key size")
        else None
    end.

(** [for k, v := range symKeyAlgos { if v == cipher { algo = k; break } }]:
    Go visits the entries of a map in an unspecified order, so the loop is
    run over [order], the order in which this execution visits them. *)
Fixpoint range_symKeyAlgos (order : list (string * packet.CipherFunction))
    (cipher : packet.CipherFunction) (algo : string) : string :=
  match order with
  | [] => algo
  | (k, v) :: rest =>
      if decide (v = cipher) then k else range_symKeyAlgos rest cipher algo
  end.

(** [func getAlgo(cipher packet.CipherFunction) string]. *)
Definition getAlgo (order : list (string * packet.CipherFunction))
    (cipher : packet.CipherFunction) : string :=
  if decide (cipher = 0) then ""
  else range_symKeyAlgos order cipher constants.AES256.

(** The iteration orders Go may choose: the permutations of the entries. *)
Definition iteration_order (order : list (string * packet.CipherFunction)) : Prop :=
  order ≡ₚ map_to_list symKeyAlgos.

(** *** The integrity-checking reader *)

(** [type checkReader struct { decrypted io.ReadCloser; body io.Reader }].
    Both fields are interface values over objects of the decryption in
    progress, and [body] reads out of [decrypted]: the two methods act on one
    shared store [W]. *)
Record checkReader (W : Type) : Type := {
  decrypted_Close : W -> option error * W;
  body_Read : W -> nat -> ReadResult * W
}.
Arguments decrypted_Close {W} _ _.
Arguments body_Read {W} _ _ _.

(** [func (cr checkReader) Read(buf []byte) (int, error)], on a buffer of
    [len_buf] bytes. *)
Definition checkReader_Read {W : Type} (cr : checkReader W) (w : W) (len_buf : nat)
    : ReadResult * W :=
  let '((n, sensitiveParsingError), w1) := body_Read cr w len_buf in
  match sensitiveParsingError with
  | Some io_EOF =>
      let '(mdcErr, w2) := decrypted_Close cr w1 in
      match mdcErr with
      | Some e => ((n, Some e), w2)
      | None => ((n, Some io_EOF), w2)
      end
  | Some _ => ((n, Some (StructuralError "parsing error")), w1)
  | None => ((n, None), w1)
  end.

(** A consumer issuing [Read] calls with buffers of the given lengths; the
    results are returned in call order. *)
Fixpoint read_calls {W : Type} (Read : W -> nat -> ReadResult * W) (w : W)
    (lens : list nat) : list ReadResult * W :=
  match lens with
  | [] => ([], w)
  | len_buf :: rest =>
      let '(r, w1) := Read w len_buf in
      let '(rs, w2) := read_calls Read w1 rest in
      (r :: rs, w2)
  end.

(** Counters observing a [checkReader]: how many inner reads reported
    [io.EOF], and how many times [Close] was entered. *)
Record counters : Type := {
  eofs_seen : nat;
  closes : nat
}.

Definition no_calls : counters := {| eofs_seen := 0; closes := 0 |}.

(** The same reader with both methods observed. *)
Definition observed {W : Type} (cr : checkReader W) : checkReader (W * counters) := {|
  decrypted_Close := fun '(w, c) =>
    let '(e, w1) := decrypted_Close cr w in
    (e, (w1, {| eofs_seen := eofs_seen c; closes := S (closes c) |}));
  body_Read := fun '(w, c) len_buf =>
    let '(r, w1) := body_Read cr w len_buf in
    (r, (w1, if is_EOF r.2
             then {| eofs_seen := S (eofs_seen c); closes := closes c |}
             else c))
|}.

(** [bytes.MinRead]: [ReadFrom] hands the reader at least this much room. *)
Definition MinRead : nat := 512.

(** [func (b *Buffer) ReadFrom(r io.Reader) (n int64, err error)] of package
    [bytes], on a buffer holding [buf]: the bytes accumulated and the error.
    [None] when [fuel] reads did not reach an error or the end. *)
Fixpoint ReadFrom {W : Type} (Read : W -> nat -> ReadResult * W) (fuel : nat)
    (buf : list byte) (w : W) : option ((list byte * option error) * W) :=
  match fuel with
  | O => None
  | S fuel' =>
      let '((m, e), w1) := Read w MinRead in
      let buf1 := buf ++ m in
      match e with
      | Some io_EOF => Some ((buf1, None), w1)
      | Some e' => Some ((buf1, Some e'), w1)
      | None => ReadFrom Read fuel' buf1 w1
      end
  end.

(** *** Messages and collaborators *)

(** [PlainMessageMetadata] and [PlainMessage], by the fields that
    [encryptWithSessionKey] and [decryptWithSessionKeyAndContext] use. *)
Record PlainMessageMetadata : Type := {
  IsUTF8 : bool;
  Filename : string;
  ModTime : Z
}.

Record PlainMessage : Type := {
  Data : list byte;
  Metadata : PlainMessageMetadata
}.

Definition NewPlainMessageMetadata (isUTF8 : bool) (filename : string) (modTime : Z)
    : PlainMessageMetadata :=
  {| IsUTF8 := isUTF8; Filename := filename; ModTime := modTime |}.

Definition GetBinary (message : PlainMessage) : list byte := Data message.

(** The engine's [packet.LiteralData], by the fields read at the end of
    [decryptWithSessionKeyAndContext]; [Time] is a [uint32]. *)
Record LiteralData : Type := {
  lit_IsUTF8 : bool;
  FileName : string;
  Time : Z
}.

(** What [encryptWithSessionKey] calls and does not define: the stream
    constructor and the two [io.WriteCloser]s it returns.  [Writers] is the
    store those objects live in, with [encBuf] among them. *)
Record EncryptPipeline : Type := {
  Writers : Type;
  encryptStreamWithSessionKey :
    PlainMessageMetadata -> SessionKey -> option KeyRing -> bool ->
    option SigningContext -> Writers + error;
  encryptWriter_Write : Writers -> list byte -> option error * Writers;
  encryptWriter_Close : Writers -> option error * Writers;
  signWriter_Write : Writers -> list byte -> option error * Writers;
  signWriter_Close : Writers -> option error * Writers;
  encBuf_Bytes : Writers -> list byte
}.

(** What [decryptWithSessionKeyAndContext] calls and does not define.
    [MessageDetails] is the engine's [*openpgp.MessageDetails] with the
    readers behind it: reading [md.UnverifiedBody] changes it. *)
Record DecryptPipeline : Type := {
  MessageDetails : Type;
  md_LiteralData : MessageDetails -> LiteralData;
  UnverifiedBody_Read : MessageDetails -> nat -> ReadResult * MessageDetails;
  decryptStreamWithSessionKey :
    SessionKey -> list byte -> option KeyRing -> option VerificationContext ->
    bool -> MessageDetails + error;
  processSignatureExpiration : MessageDetails -> Z -> MessageDetails;
  verifyDetailsSignature :
    MessageDetails -> KeyRing -> option VerificationContext -> option error
}.

(** *** Encryption *)

(** [func encryptWithSessionKey(message, sk, signKeyRing, compress,
    signingContext) ([]byte, error)]. *)
Definition encryptWithSessionKey (E : EncryptPipeline) (message : PlainMessage)
    (sk : SessionKey) (signKeyRing : option KeyRing) (compress : bool)
    (signingContext : option SigningContext) : list byte + error :=
  match encryptStreamWithSessionKey E
          (NewPlainMessageMetadata (IsUTF8 (Metadata message))
             (Filename (Metadata message)) (ModTime (Metadata message)))
          sk signKeyRing compress signingContext with
  | inr err => inr err
  | inl w =>
      let written : (option error * Writers E) + error :=
        match signKeyRing with
        | Some _ =>
            let '(err, w1) := signWriter_Write E w (GetBinary message) in
            match err with
            | Some e => inr (errors_Wrap e "gopenpgp: error in writing signed message")
            | None =>
                let '(err, w2) := signWriter_Close E w1 in
                match err with
                | Some e => inr (errors_Wrap e "gopenpgp: error in closing signing writer")
                | None => inl (None, w2)
                end
            end
        | None => inl (encryptWriter_Write E w (GetBinary message))
        end in
      match written with
      | inr err => inr err
      | inl (Some e, _) => inr (errors_Wrap e "gopenpgp: error in writing message")
      | inl (None, w1) =>
          let '(err, w2) := encryptWriter_Close E w1 in
          match err with
          | Some e => inr (errors_Wrap e "gopenpgp: error in closing encryption writer")
          | None => inl (encBuf_Bytes E w2)
          end
      end
  end.

(** [func (sk *SessionKey) Encrypt(message *PlainMessage) ([]byte, error)]. *)
Definition Encrypt (E : EncryptPipeline) (sk : SessionKey) (message : PlainMessage)
    : list byte + error :=
  encryptWithSessionKey E message sk None false None.

(** [func (sk *SessionKey) EncryptAndSign]. *)
Definition EncryptAndSign (E : EncryptPipeline) (sk : SessionKey)
    (message : PlainMessage) (signKeyRing : option KeyRing) : list byte + error :=
  encryptWithSessionKey E message sk signKeyRing false None.

(** [func (sk *SessionKey) EncryptAndSignWithContext]. *)
Definition EncryptAndSignWithContext (E : EncryptPipeline) (sk : SessionKey)
    (message : PlainMessage) (signKeyRing : option KeyRing)
    (signingContext : option SigningContext) : list byte + error :=
  encryptWithSessionKey E message sk signKeyRing false signingContext.

(** [func (sk *SessionKey) EncryptWithCompression]. *)
Definition EncryptWithCompression (E : EncryptPipeline) (sk : SessionKey)
    (message : PlainMessage) : list byte + error :=
  encryptWithSessionKey E message sk None true None.

(** *** Decryption *)

(** [func decryptWithSessionKeyAndContext(sk, dataPacket, verifyKeyRing,
    verifyTime, verificationContext)].  The two results are returned as Go
    returns them: the message pointer and the error, side by side. *)
Definition decryptWithSessionKeyAndContext (D : DecryptPipeline) (fuel : nat)
    (sk : SessionKey) (dataPacket : list byte) (verifyKeyRing : option KeyRing)
    (verifyTime : Z) (verificationContext : option VerificationContext)
    : option (option PlainMessage * option error) :=
  match decryptStreamWithSessionKey D sk dataPacket verifyKeyRing
          verificationContext false with
  | inr err => Some (None, Some err)
  | inl md =>
      match ReadFrom (UnverifiedBody_Read D) fuel [] md with
      | None => None
      | Some ((_, Some err), _) =>
          Some (None, Some (errors_Wrap err "gopenpgp: error in reading message body"))
      | Some ((messageBuf, None), md1) =>
          let '(md2, err) :=
            match verifyKeyRing with
            | Some kr =>
                let md2 := processSignatureExpiration D md1 verifyTime in
                (md2, verifyDetailsSignature D md2 kr verificationContext)
            | None => (md1, None)
            end in
          Some (Some {| Data := messageBuf;
                        Metadata := {|
                          IsUTF8 := lit_IsUTF8 (md_LiteralData D md2);
                          Filename := FileName (md_LiteralData D md2);
                          ModTime := Time (md_LiteralData D md2) |} |},
                err)
      end
  end.

(** [func (sk *SessionKey) DecryptAndVerify(dataPacket, verifyKeyRing,
    verifyTime)]. *)
Definition DecryptAndVerify (D : DecryptPipeline) (fuel : nat) (sk : SessionKey)
    (dataPacket : list byte) (verifyKeyRing : option KeyRing) (verifyTime : Z)
    : option (option PlainMessage * option error) :=
  decryptWithSessionKeyAndContext D fuel sk dataPacket verifyKeyRing verifyTime None.

(** [func (sk *SessionKey) DecryptAndVerifyWithContext]. *)
Definition DecryptAndVerifyWithContext (D : DecryptPipeline) (fuel : nat)
    (sk : SessionKey) (dataPacket : list byte) (verifyKeyRing : option KeyRing)
    (verifyTime : Z) (verificationContext : option VerificationContext)
    : option (option PlainMessage * option error) :=
  decryptWithSessionKeyAndContext D fuel sk dataPacket verifyKeyRing verifyTime
    verificationContext.

(** [func (sk *SessionKey) Decrypt(dataPacket []byte)]. *)
Definition Decrypt (D : DecryptPipeline) (fuel : nat) (sk : SessionKey)
    (dataPacket : list byte) : option (option PlainMessage * option error) :=
  DecryptAndVerify D fuel sk dataPacket None 0.

(** *** The session-key stream pipeline *)

(** The objects behind the writers of an encryption in progress: the cipher
    and key it was seeded with, the literal-data header, the plaintext
    written so far and the output buffer [encBuf]. *)
Record encStore : Type := {
  es_cipher : packet.CipherFunction;
  es_key : list byte;
  es_compress : bool;
  es_literal : LiteralData;
  es_plain : list byte;
  es_encBuf : list byte
}.

(** The objects behind a decryption in progress: the literal-data header,
    the plaintext not yet read, and whether the trailing integrity tag of
    the packet matches. *)
Record decStore : Type := {
  ds_literal : LiteralData;
  ds_unread : list byte;
  ds_tag_ok : bool
}.

(** The OpenPGP engine and the helpers of other files, as far as the
    pipeline needs them.  [seal] is the engine's serialisation of one
    literal packet into a symmetrically encrypted, integrity-protected data
    packet; [unseal] parses and decrypts such a packet ([None]: not
    parseable) and says whether its integrity tag matches. *)
Record Primitives : Type := {
  seal : packet.CipherFunction -> list byte -> bool -> LiteralData -> list byte
         -> list byte;
  unseal : packet.CipherFunction -> list byte -> list byte
           -> option (LiteralData * list byte * bool);
  prim_signWrite : encStore -> list byte -> option error * encStore;
  prim_signClose : encStore -> option error * encStore;
  prim_processSignatureExpiration : decStore -> Z -> decStore;
  prim_verifyDetailsSignature :
    decStore -> KeyRing -> option VerificationContext -> option error
}.

(** Modelled from the spec: [encryptStreamWithSessionKey] is not among the
    sources.  It constructs a streaming encryption pipeline seeded with this
    key instead of performing asymmetric key exchange; compression is an
    opt-in filter ahead of encryption. *)
Definition sk_encryptStream (meta : PlainMessageMetadata) (sk : SessionKey)
    (signKeyRing : option KeyRing) (compress : bool)
    (signingContext : option SigningContext) : encStore + error :=
  match GetCipherFunc sk with
  | (_, Some err) => inr (errors_Wrap err "gopenpgp: unable to encrypt with session key")
  | (dc, None) =>
      inl {| es_cipher := dc; es_key := Key sk; es_compress := compress;
             es_literal := {| lit_IsUTF8 := IsUTF8 meta; FileName := Filename meta;
                              Time := ModTime meta mod 2 ^ 32 |};
             es_plain := []; es_encBuf := [] |}
  end.

(** Modelled from the spec: the encryption writer of that pipeline is not
    among the sources.  [Write] takes plaintext in; [Close] completes the
    data packet in [encBuf]. *)
Definition sk_encryptWrite (w : encStore) (b : list byte) : option error * encStore :=
  (None, {| es_cipher := es_cipher w; es_key := es_key w; es_compress := es_compress w;
            es_literal := es_literal w; es_plain := es_plain w ++ b;
            es_encBuf := es_encBuf w |}).

Definition sk_encryptClose (P : Primitives) (w : encStore) : option error * encStore :=
  (None, {| es_cipher := es_cipher w; es_key := es_key w; es_compress := es_compress w;
            es_literal := es_literal w; es_plain := es_plain w;
            es_encBuf := es_encBuf w ++
              seal P (es_cipher w) (es_key w) (es_compress w) (es_literal w) (es_plain w) |}).

(** The raw decrypted-body reader: a reader over the unread plaintext, as
    [bytes.Reader] reads ([io.EOF] once nothing is left). *)
Definition rawBody_Read (w : decStore) (len_buf : nat) : ReadResult * decStore :=
  match ds_unread w with
  | [] => (([], Some io_EOF), w)
  | _ =>
      ((take len_buf (ds_unread w), None),
       {| ds_literal := ds_literal w; ds_unread := drop len_buf (ds_unread w);
          ds_tag_ok := ds_tag_ok w |})
  end.

(** The integrity finalisation of the decryption: the engine's [Close]
    reports a tag that does not match. *)
Definition decrypted_Close_tag (w : decStore) : option error * decStore :=
  (if ds_tag_ok w then None else Some (EngineError "openpgp: invalid data: MDC hash mismatch"),
   w).

(** Modelled from the spec: [decryptStreamWithSessionKey] is not among the
    sources.  It constructs a streaming decryption pipeline from the key, and
    the raw decrypted-body reader is wrapped, together with the handle to the
    integrity finalisation, in the integrity-checking reader. *)
Definition sk_decryptStream (P : Primitives) (sk : SessionKey) (dataPacket : list byte)
    (verifyKeyRing : option KeyRing) (verificationContext : option VerificationContext)
    (disableIntendedRecipients : bool) : decStore + error :=
  match GetCipherFunc sk with
  | (_, Some err) => inr (errors_Wrap err "gopenpgp: unable to decrypt with session key")
  | (dc, None) =>
      match unseal P dc (Key sk) dataPacket with
      | None =>
          inr (errors_Wrap (EngineError "openpgp: invalid data")
                 "gopenpgp: unable to decode symmetric packet")
      | Some (lit, body, tag_ok) =>
          inl {| ds_literal := lit; ds_unread := body; ds_tag_ok := tag_ok |}
      end
  end.

Definition sk_checkReader : checkReader decStore :=
  {| decrypted_Close := decrypted_Close_tag; body_Read := rawBody_Read |}.

(** The two pipelines that [Encrypt] and [Decrypt] run on. *)
Definition sessionKeyEncryption (P : Primitives) : EncryptPipeline := {|
  Writers := encStore;
  encryptStreamWithSessionKey := sk_encryptStream;
  encryptWriter_Write := sk_encryptWrite;
  encryptWriter_Close := sk_encryptClose P;
  signWriter_Write := prim_signWrite P;
  signWriter_Close := prim_signClose P;
  encBuf_Bytes := es_encBuf
|}.

Definition sessionKeyDecryption (P : Primitives) : DecryptPipeline := {|
  MessageDetails := decStore;
  md_LiteralData := ds_literal;
  UnverifiedBody_Read := checkReader_Read sk_checkReader;
  decryptStreamWithSessionKey := sk_decryptStream P;
  processSignatureExpiration := prim_processSignatureExpiration P;
  verifyDetailsSignature := prim_verifyDetailsSignature P
|}.

End SessionKeys.

(** ** The verification handle *)

Module VerifyHandle.

(** [type Clock func() time.Time], read through [.Unix()].  The clock is the
    one impure collaborator: [clock k] is the reading, in seconds, that the
    sampling number [k] of an execution obtains, and the functions that
    sample take and return the number of samplings made so far. *)
Definition Clock : Type := nat -> Z.

(** Modelled from the spec: [NewConstantClock] is not among the sources; it
    gives the clock pinned to one instant. *)
Definition NewConstantClock (t : Z) : Clock := fun _ => t.

(** [type verifyHandle struct].  The field [VerificationContext] carries the
    prefix [vh_], its name being taken by its type. *)
Record verifyHandle : Type := {
  VerifyKeyRing : option KeyRing;
  vh_VerificationContext : option VerificationContext;
  DisableVerifyTimeCheck : bool;
  clock : Clock
}.

(** [func defaultVerifyHandle(clock Clock) *verifyHandle]. *)
Definition defaultVerifyHandle (clock : Clock) : verifyHandle :=
  {| VerifyKeyRing := None; vh_VerificationContext := None;
     DisableVerifyTimeCheck := false; clock := clock |}.

(** [func (vh *verifyHandle) validate() error]. *)
Definition validate (vh : verifyHandle) : option error :=
  match VerifyKeyRing vh with
  | None => Some (errors_New "gopenpgp: no verification key provided")
  | Some _ => None
  end.

(** Readers as values: a reader over a byte slice, a reader handed out by
    the engine, and a reader wrapped by [internal.NewSanitizeReader]. *)
Inductive Reader : Type :=
  | bytes_NewReader (b : list byte)
  | engine_Reader (handle : nat)
  | NewSanitizeReader (r : Reader).

#[global] Instance Reader_eq_dec : EqDecision Reader.
Proof. solve_decision. Defined.

(** The engine's [packet.SignatureType] codes used here. *)
Definition SigTypeBinary : Z := 0.
Definition SigTypeText : Z := 1.

(** The engine's [packet.Config], [openpgp.SignatureCandidate],
    [openpgp.MessageDetails] and [clearsign.Block], by the fields used. *)
Record Config : Type := {
  cfg_Time : option Clock;
  KnownNotations : gmap string bool
}.

Record SignatureCandidate : Type := {
  SigType : Z;
  IssuerKeyId : Z
}.

Record MessageDetails : Type := {
  SignatureCandidates : list SignatureCandidate;
  UnverifiedBody : Reader
}.

Record Block : Type := {
  Plaintext : list byte;
  Bytes : list byte;
  ArmoredSignature_Body : Reader
}.

(** [type VerifyDataReader struct], by the order of the values in the two
    composite literals that build it. *)
Record VerifyDataReader : Type := {
  details : MessageDetails;
  internalReader : Reader;
  verifyKeyRing : option KeyRing;
  verifyTime : Z;
  disableTimeCheck : bool;
  readAll : bool;
  verificationContext : option VerificationContext
}.

(** What the file calls and does not define: the engine ([openpgp],
    [armor], [clearsign], [io.ReadAll] on its readers) and the methods of
    [KeyRing] and [VerifyDataReader]. *)
Record Collaborators : Type := {
  EntityList : Type;
  VerifyResult : Type;
  SignatureContextName : string;
  getEntities : option KeyRing -> EntityList;
  unarmorInput : Z -> Reader -> Reader * bool;
  armor_Decode : Reader -> Reader + error;
  ReadMessage : Reader -> EntityList -> Config -> MessageDetails + error;
  VerifyDetachedSignatureReader :
    EntityList -> Reader -> Reader -> Config -> MessageDetails + error;
  clearsign_Decode : list byte -> option Block;
  io_ReadAll : Reader -> list byte + error;
  VerifyDataReader_Read : VerifyDataReader -> nat -> ReadResult * VerifyDataReader;
  VerifySignature : VerifyDataReader -> VerifyResult + error
}.

(** [func (vh *verifyHandle) verifyingReader(signatureMessage io.Reader)],
    entered after [samples] samplings of the clock. *)
Definition verifyingReader (C : Collaborators) (vh : verifyHandle)
    (signatureMessage : Reader) (samples : nat)
    : (VerifyDataReader + error) * nat :=
  let config := {| cfg_Time := None; KnownNotations := ∅ |} in
  let verifyTime := clock vh samples in
  let samples := S samples in
  let config := {| cfg_Time := Some (NewConstantClock verifyTime);
                   KnownNotations := KnownNotations config |} in
  let config :=
    match vh_VerificationContext vh with
    | Some _ => {| cfg_Time := cfg_Time config;
                   KnownNotations := {[ SignatureContextName C := true ]} |}
    | None => config
    end in
  match ReadMessage C signatureMessage (getEntities C (VerifyKeyRing vh)) config with
  | inr err =>
      (inr (errors_Wrap err "gopenpgp: initialize signature reader failed"), samples)
  | inl md =>
      (inl {| details := md;
              internalReader := UnverifiedBody md;
              verifyKeyRing := VerifyKeyRing vh;
              verifyTime := verifyTime;
              disableTimeCheck := DisableVerifyTimeCheck vh;
              readAll := false;
              verificationContext := vh_VerificationContext vh |},
       samples)
  end.

(** [func verifyingDetachedReader(data, signature, verifyKeyRing,
    verificationContext, disableVerifyTimeCheck, config, clock)]. *)
Definition verifyingDetachedReader (C : Collaborators) (data signature : Reader)
    (verifyKeyRing : option KeyRing) (verificationContext : option VerificationContext)
    (disableVerifyTimeCheck : bool) (config : option Config) (clock : Clock)
    (samples : nat) : (VerifyDataReader + error) * nat :=
  let config :=
    match config with
    | None => {| cfg_Time := None; KnownNotations := ∅ |}
    | Some c => c
    end in
  let verifyTime := clock samples in
  let samples := S samples in
  let config := {| cfg_Time := Some (NewConstantClock verifyTime);
                   KnownNotations := KnownNotations config |} in
  let config :=
    match verificationContext with
    | Some _ => {| cfg_Time := cfg_Time config;
                   KnownNotations := {[ SignatureContextName C := true ]} |}
    | None => config
    end in
  match VerifyDetachedSignatureReader C (getEntities C verifyKeyRing) data signature
          config with
  | inr err => (inr (errors_Wrap err "gopenpgp: verify signature reader failed"), samples)
  | inl md =>
      let internalReader := UnverifiedBody md in
      let internalReader :=
        match SignatureCandidates md with
        | c0 :: _ =>
            if decide (SigType c0 = SigTypeText)
            then NewSanitizeReader internalReader
            else internalReader
        | [] => internalReader
        end in
      (inl {| details := md;
              internalReader := internalReader;
              verifyKeyRing := verifyKeyRing;
              verifyTime := verifyTime;
              disableTimeCheck := disableVerifyTimeCheck;
              readAll := false;
              verificationContext := verificationContext |},
       samples)
  end.

(** [func (vh *verifyHandle) verifyingDetachedReader(data, signature)]. *)
Definition vh_verifyingDetachedReader (C : Collaborators) (vh : verifyHandle)
    (data signature : Reader) (samples : nat) : (VerifyDataReader + error) * nat :=
  verifyingDetachedReader C data signature (VerifyKeyRing vh)
    (vh_VerificationContext vh) (DisableVerifyTimeCheck vh) None (clock vh) samples.

(** [func (vh *verifyHandle) VerifyingReader(detachedData, signatureMessage,
    encoding)]; a [nil] [detachedData] is [None]. *)
Definition VerifyingReader (C : Collaborators) (vh : verifyHandle)
    (detachedData : option Reader) (signatureMessage : Reader) (encoding : Z)
    (samples : nat) : (VerifyDataReader + error) * nat :=
  let '(signatureMessage, armored) := unarmorInput C encoding signatureMessage in
  let unarmored : Reader + error :=
    if armored then
      match armor_Decode C signatureMessage with
      | inr err => inr (errors_Wrap err "gopenpgp: unarmor failed")
      | inl body => inl body
      end
    else inl signatureMessage in
  match unarmored with
  | inr err => (inr err, samples)
  | inl signatureMessage =>
      match detachedData with
      | Some data => vh_verifyingDetachedReader C vh data signatureMessage samples
      | None => verifyingReader C vh signatureMessage samples
      end
  end.

(** [io.Copy(ioutil.Discard, src)]: [Discard] reads [src] into a scratch
    buffer of 8192 bytes until an error; [io.EOF] is a normal end.  [None]
    when [fuel] reads did not reach an error or the end. *)
Definition discardBuffer : nat := (8 * 1024)%nat.

Fixpoint io_Copy_Discard {W : Type} (Read : W -> nat -> ReadResult * W) (fuel : nat)
    (w : W) : option (option error * W) :=
  match fuel with
  | O => None
  | S fuel' =>
      let '((_, e), w1) := Read w discardBuffer in
      match e with
      | Some io_EOF => Some (None, w1)
      | Some e' => Some (Some e', w1)
      | None => io_Copy_Discard Read fuel' w1
      end
  end.

(** [func (vh *verifyHandle) verifyDetachedSignature(origText io.Reader,
    signature []byte)]. *)
Definition verifyDetachedSignature (C : Collaborators) (vh : verifyHandle) (fuel : nat)
    (origText : Reader) (signature : list byte) (samples : nat)
    : option (VerifyResult C + error) * nat :=
  let signatureReader := bytes_NewReader signature in
  match vh_verifyingDetachedReader C vh origText signatureReader samples with
  | (inr err, samples) =>
      (Some (inr (errors_Wrap err "gopenpgp: verify signature failed")), samples)
  | (inl ptReader, samples) =>
      match io_Copy_Discard (VerifyDataReader_Read C) fuel ptReader with
      | None => (None, samples)
      | Some (Some err, _) =>
          (Some (inr (errors_Wrap err "gopenpgp: hashing failed")), samples)
      | Some (None, ptReader) => (Some (VerifySignature C ptReader), samples)
      end
  end.

(** How a Go call ends: it returns, or it panics. *)
Inductive outcome (A : Type) : Type :=
  | Returns (a : A)
  | Panics (msg : string).
Arguments Returns {A} a.
Arguments Panics {A} msg.

(** The slice expression [s[:high]]: a run-time panic unless
    [0 <= high <= cap(s)]; a slice is taken here with [cap(s) = len(s)]. *)
Definition slice_to (s : list byte) (high : Z) : outcome (list byte) :=
  if decide (0 <= high <= Z.of_nat (length s))
  then Returns (take (Z.to_nat high) s)
  else Panics "runtime error: slice bounds out of range".

(** [type VerifyCleartextResult struct]. *)
Record VerifyCleartextResult (C : Collaborators) : Type := {
  vcr_VerifyResult : VerifyResult C;
  cleartext : list byte
}.
Arguments vcr_VerifyResult {C} _.
Arguments cleartext {C} _.

(** [func (vh *verifyHandle) verifyCleartext(cleartext []byte)].  The second
    test of [err] after [io.ReadAll] cannot be reached with an error and has
    no counterpart here. *)
Definition verifyCleartext (C : Collaborators) (vh : verifyHandle) (fuel : nat)
    (cleartext : list byte) (samples : nat)
    : option (outcome (VerifyCleartextResult C + error)) * nat :=
  match clearsign_Decode C cleartext with
  | None =>
      (Some (Returns (inr (errors_New "gopenpgp: not able to parse cleartext message"))),
       samples)
  | Some block =>
      match io_ReadAll C (ArmoredSignature_Body block) with
      | inr err =>
          (Some (Returns (inr (errors_Wrap err
                   "gopenpgp: signature not parsable in cleartext"))), samples)
      | inl signature =>
          let reader := bytes_NewReader (Bytes block) in
          match verifyDetachedSignature C vh fuel reader signature samples with
          | (None, samples) => (None, samples)
          | (Some (inr err), samples) =>
              (Some (Returns (inr (errors_Wrap err
                       "gopenpgp: cleartext verify failed with non-signature error"))),
               samples)
          | (Some (inl result), samples) =>
              match slice_to (Plaintext block)
                      (Z.of_nat (length (Plaintext block)) - 1) with
              | Panics msg => (Some (Panics msg), samples)
              | Returns text =>
                  (Some (Returns (inl {| vcr_VerifyResult := result;
                                         cleartext := text |})), samples)
              end
          end
      end
  end.

(** [func (vh *verifyHandle) VerifyCleartext(cleartext []byte)]. *)
Definition VerifyCleartext (C : Collaborators) (vh : verifyHandle) (fuel : nat)
    (cleartext : list byte) (samples : nat)
    : option (outcome (VerifyCleartextResult C + error)) * nat :=
  verifyCleartext C vh fuel cleartext samples.

(** [func (vh *verifyHandle) VerifyDetached(data, signature []byte,
    encoding int8)]. *)
Definition VerifyDetached (C : Collaborators) (vh : verifyHandle) (fuel : nat)
    (data signature : list byte) (encoding : Z) (samples : nat)
    : option (VerifyResult C + error) * nat :=
  let signatureMessageReader := bytes_NewReader signature in
  let detachedDataReader := bytes_NewReader data in
  match VerifyingReader C vh (Some detachedDataReader) signatureMessageReader
          encoding samples with
  | (inr err, samples) =>
      (Some (inr (errors_Wrap err "gopenpgp: verifying signature failed")), samples)
  | (inl ptReader, samples) =>
      match io_Copy_Discard (VerifyDataReader_Read C) fuel ptReader with
      | None => (None, samples)
      | Some (Some err, _) =>
          (Some (inr (errors_Wrap err
                   "gopenpgp: reading data to verify signature failed")), samples)
      | Some (None, ptReader) => (Some (VerifySignature C ptReader), samples)
      end
  end.

End VerifyHandle.

(** ** crypto/sessionkey.go: making session keys *)

Module SessionKeyMaking.

Import SessionKeys.
Import VerifyHandle.

(** [io.ErrUnexpectedEOF]. *)
Definition io_ErrUnexpectedEOF : error := errors_New "unexpected EOF".

(** [io.ReadFull(r, buf)], that is [io.ReadAtLeast(r, buf, len(buf))], on a
    buffer of [size] bytes of which [filled] are stored: [Read] is called on
    the free part of the buffer until the buffer is full or a read reports
    an error.  A full buffer is no error; [io.EOF] after some bytes is
    [io.ErrUnexpectedEOF].  A read stores at most as many bytes as the free
    part holds.  [None] when [fuel] reads did not fill the buffer. *)
Fixpoint io_ReadFull {R : Type} (Read : R -> nat -> ReadResult * R) (fuel : nat)
    (size : nat) (filled : list byte) (r : R)
    : option ((list byte * option error) * R) :=
  if decide (size ≤ length filled)%nat then Some ((filled, None), r)
  else
    match fuel with
    | O => None
    | S fuel' =>
        let room := (size - length filled)%nat in
        let '((m, e), r1) := Read r room in
        let filled1 := filled ++ take room m in
        match e with
        | None => io_ReadFull Read fuel' size filled1 r1
        | Some err =>
            if decide (size ≤ length filled1)%nat then Some ((filled1, None), r1)
            else if decide (0 < length filled1 ∧ err = io_EOF)%nat
                 then Some ((filled1, Some io_ErrUnexpectedEOF), r1)
                 else Some ((filled1, Some err), r1)
        end
    end.

(** The engine's source of randomness, [config.Random()]: an [io.Reader]
    over a store of its own. *)
Record RandomSource : Type := {
  Rand : Type;
  Random_Read : Rand -> nat -> ReadResult * Rand
}.

(** [func RandomToken(size int) ([]byte, error)].  [make([]byte, size)]
    panics on a negative [size]. *)
Definition RandomToken (S : RandomSource) (fuel : nat) (size : Z) (r : Rand S)
    : option (outcome (list byte + error) * Rand S) :=
  if decide (size < 0)
  then Some (Panics "runtime error: makeslice: len out of range", r)
  else
    match io_ReadFull (Random_Read S) fuel (Z.to_nat size) [] r with
    | None => None
    | Some ((_, Some err), r1) =>
        Some (Returns (inr (errors_Wrap err "gopenpgp: error in generating random token")),
              r1)
    | Some ((symKey, None), r1) => Some (Returns (inl symKey), r1)
    end.

(** [func GenerateSessionKeyAlgo(algo string) (sk *SessionKey, err error)]. *)
Definition GenerateSessionKeyAlgo (S : RandomSource) (fuel : nat) (algo : string)
    (r : Rand S) : option (outcome (SessionKey + error) * Rand S) :=
  match symKeyAlgos !! algo with
  | None =>
      Some (Returns (inr (errors_New
              "gopenpgp: unknown symmetric key generation algorithm")), r)
  | Some cf =>
      match RandomToken S fuel (Z.of_nat (packet.KeySize cf)) r with
      | None => None
      | Some (Panics msg, r1) => Some (Panics msg, r1)
      | Some (Returns (inr err), r1) => Some (Returns (inr err), r1)
      | Some (Returns (inl token), r1) =>
          Some (Returns (inl {| V6 := false; Key := token; Algo := algo |}), r1)
      end
  end.

(** [func GenerateSessionKey()], for the default cipher. *)
Definition GenerateSessionKey (S : RandomSource) (fuel : nat) (r : Rand S)
    : option (outcome (SessionKey + error) * Rand S) :=
  GenerateSessionKeyAlgo S fuel constants.AES256 r.

(** The engine's [packet.EncryptedKey], by the fields read in
    [newSessionKeyFromEncrypted]. *)
Record EncryptedKey : Type := {
  CipherFunc : packet.CipherFunction;
  Version : Z;
  ek_Key : list byte
}.

(** [func newSessionKeyFromEncrypted(ek *packet.EncryptedKey)].  The table is visited in [order]; [fmt_v] is what [fmt] prints
    for a cipher code under the verb v. *)
Definition newSessionKeyFromEncrypted (order : list (string * packet.CipherFunction))
    (fmt_v : packet.CipherFunction -> string) (ek : EncryptedKey)
    : SessionKey + error :=
  let algo := range_symKeyAlgos order (CipherFunc ek) "" in
  if decide (algo = "" ∧ Version ek < 6)
  then inr (errors_New ("gopenpgp: unsupported cipher function: "
                          +:+ fmt_v (CipherFunc ek)))
  else
    let sk := {| Key := ek_Key ek; Algo := algo;
                 V6 := bool_decide (Version ek = 6) |} in
    match checkSize sk with
    | Some err => inr (errors_Wrap err "gopenpgp: unable to decrypt session key")
    | None => inl sk
    end.

End SessionKeyMaking.

(** ** The verification handle: inline verification *)

Module VerifyInlineCall.

Import VerifyHandle.

(** The methods of [VerifyDataReader] that [VerifyInline] calls besides
    those of [Collaborators]; [Metadata] is what [GetMetadata] returns. *)
Record InlineMethods : Type := {
  Metadata : Type;
  VerifyDataReader_ReadAll : VerifyDataReader -> (list byte + error) * VerifyDataReader;
  GetMetadata : VerifyDataReader -> Metadata
}.

(** [type VerifiedDataResult struct], by the composite literal of
    [VerifyInline]. *)
Record VerifiedDataResult (C : Collaborators) (M : InlineMethods) : Type := {
  data : list byte;
  metadata : Metadata M;
  vdr_VerifyResult : VerifyResult C
}.
Arguments data {C M} _.
Arguments metadata {C M} _.
Arguments vdr_VerifyResult {C M} _.

(** [func (vh *verifyHandle) VerifyInline(message []byte, encoding int8)]. *)
Definition VerifyInline (C : Collaborators) (M : InlineMethods) (vh : verifyHandle)
    (message : list byte) (encoding : Z) (samples : nat)
    : (VerifiedDataResult C M + error) * nat :=
  let messageReader := bytes_NewReader message in
  match VerifyingReader C vh None messageReader encoding samples with
  | (inr err, samples) =>
      (inr (errors_Wrap err "gopenpgp: verifying signature failed"), samples)
  | (inl ptReader, samples) =>
      match VerifyDataReader_ReadAll M ptReader with
      | (inr err, _) =>
          (inr (errors_Wrap err "gopenpgp: reading data to verify signature failed"),
           samples)
      | (inl data, ptReader) =>
          match VerifySignature C ptReader with
          | inr err =>
              (inr (errors_Wrap err "gopenpgp: verifying signature failed"), samples)
          | inl verifyResult =>
              (inl {| data := data; metadata := GetMetadata M ptReader;
                      vdr_VerifyResult := verifyResult |}, samples)
          end
      end
  end.

End VerifyInlineCall.

(** * Definitions for the statements *)

Import SessionKeys.
Import VerifyHandle.
Import SessionKeyMaking.

(** ** Statements *)

(** The entries of [symKeyAlgos], in the order the composite literal lists
    them. *)
Definition table_entries : list (string * packet.CipherFunction) :=
  [ (constants.ThreeDES, packet.Cipher3DES);
    (constants.TripleDES, packet.Cipher3DES);
    (constants.CAST5, packet.CipherCAST5);
    (constants.AES128, packet.CipherAES128);
    (constants.AES192, packet.CipherAES192);
    (constants.AES256, packet.CipherAES256) ].

(** The engine's contract: a data packet sealed under a cipher and a key of
    that cipher's size opens, under the same cipher and key, to the body it
    was sealed from, with a matching integrity tag. *)
Definition sound_cipher (P : Primitives) : Prop :=
  ∀ (cf : packet.CipherFunction) (key : list byte) (compress : bool)
    (lit : LiteralData) (body : list byte),
    length key = packet.KeySize cf →
    ∃ lit' : LiteralData,
      unseal P cf key (seal P cf key compress lit body) = Some (lit', body, true).

(** The claim of a single finalisation, as the specification words it: no
    sequence of [Read] calls on a reader that was never closed enters
    [Close] more than once. *)
Definition finalized_at_most_once {W : Type} (cr : checkReader W) (w : W)
    (lens : list nat) : Prop :=
  (closes (read_calls (checkReader_Read (observed cr)) (w, no_calls) lens).2.2 ≤ 1)%nat.


(** The claim on text signatures, as the specification words it: the reader
    exposed by the detached path goes through the filter whenever a
    candidate, whichever it is, has the text type. *)
Definition text_candidate_sanitized (C : Collaborators) : Prop :=
  ∀ (data signature : Reader) (kr : option KeyRing)
    (ctx : option VerificationContext) (disable : bool) (config : option Config)
    (clock : Clock) (samples samples' : nat) (reader : VerifyDataReader),
    verifyingDetachedReader C data signature kr ctx disable config clock samples
    = (inl reader, samples') →
    (∃ c, c ∈ SignatureCandidates (details reader) ∧ SigType c = SigTypeText) →
    internalReader reader = NewSanitizeReader (UnverifiedBody (details reader)).

(** ** Examples *)

(** A decrypted body with nothing left to read and a matching tag. *)
Definition drained_body : decStore :=
  {| ds_literal := {| lit_IsUTF8 := false; FileName := ""; Time := 0 |};
     ds_unread := []; ds_tag_ok := true |}.


(** A stand-in engine for examples: the data packet of a literal packet is
    its body, every packet parses with a matching tag, signing adds nothing,
    and no signature ever finds its verifier. *)
Definition null_engine : Primitives := {|
  seal := fun _ _ _ _ body => body;
  unseal := fun _ _ dataPacket =>
    Some ({| lit_IsUTF8 := false; FileName := ""; Time := 0 |}, dataPacket, true);
  prim_signWrite := sk_encryptWrite;
  prim_signClose := fun w => (None, w);
  prim_processSignatureExpiration := fun md _ => md;
  prim_verifyDetailsSignature := fun _ _ _ =>
    Some (EngineError "openpgp: signature made by unknown entity")
|}.

(** The key of 32 zero bytes for AES-256, the plaintext "hello", and the
    line feed. *)
Definition zero_key_AES256 : SessionKey :=
  {| V6 := false; Key := replicate 32 x00; Algo := constants.AES256 |}.

Definition hello : list byte := ["h"; "e"; "l"; "l"; "o"]%byte.

Definition lf : byte := x0a.

(** A stand-in for the collaborators, for examples.  A message parses to its
    own reader as body; a detached signature holds one candidate per byte,
    typed by it; a cleartext message decodes to itself with an empty
    signature; a verifying reader is at its end at once, and the result of a
    verification is the instant it was made for. *)
Definition stub_engine : Collaborators := {|
  EntityList := list Z;
  VerifyResult := Z;
  SignatureContextName := "context";
  getEntities := fun kr => from_option entities [] kr;
  unarmorInput := fun _ r => (r, false);
  armor_Decode := inl;
  ReadMessage := fun r _ _ => inl {| SignatureCandidates := []; UnverifiedBody := r |};
  VerifyDetachedSignatureReader := fun _ data signature _ =>
    inl {| SignatureCandidates :=
             match signature with
             | bytes_NewReader b =>
                 (fun x => {| SigType := Z.of_N (Byte.to_N x); IssuerKeyId := 0 |}) <$> b
             | _ => []
             end;
           UnverifiedBody := data |};
  clearsign_Decode := fun text =>
    Some {| Plaintext := text; Bytes := text; ArmoredSignature_Body := bytes_NewReader [] |};
  io_ReadAll := fun r =>
    match r with
    | bytes_NewReader b => inl b
    | _ => inr (EngineError "unexpected EOF")
    end;
  VerifyDataReader_Read := fun r _ =>
    (([], Some io_EOF),
     {| details := details r; internalReader := internalReader r;
        verifyKeyRing := verifyKeyRing r; verifyTime := verifyTime r;
        disableTimeCheck := disableTimeCheck r; readAll := true;
        verificationContext := verificationContext r |});
  VerifySignature := fun r => inl (verifyTime r)
|}.

(** A clock that advances by a second from one sampling to the next. *)
Definition ticking_clock : Clock := fun k => 1700000000 + Z.of_nat k.


(** ** Examples for the further properties *)

(** A source of randomness that fills whatever room it is given, and one
    that is at its end. *)
Definition filling_source : RandomSource := {|
  Rand := nat;
  Random_Read := fun n room => ((replicate room x2a, None), (n + room)%nat)
|}.

Definition empty_source : RandomSource := {|
  Rand := unit;
  Random_Read := fun u _ => (([], Some io_EOF), u)
|}.

(** A reader at its end whose finalisation fails, with [io.EOF] itself as
    the error. *)
Definition eof_closing_reader : checkReader unit := {|
  decrypted_Close := fun u => (Some io_EOF, u);
  body_Read := fun u _ => (([], Some io_EOF), u)
|}.

(** The pipeline [E] with another signing writer, and with another [Write]
    of the encryption writer. *)
Definition with_signWriter (E : EncryptPipeline)
    (write : Writers E → list byte → option error * Writers E)
    (close : Writers E → option error * Writers E) : EncryptPipeline := {|
  Writers := Writers E;
  encryptStreamWithSessionKey := encryptStreamWithSessionKey E;
  encryptWriter_Write := encryptWriter_Write E;
  encryptWriter_Close := encryptWriter_Close E;
  signWriter_Write := write;
  signWriter_Close := close;
  encBuf_Bytes := encBuf_Bytes E
|}.

Definition with_encryptWrite (E : EncryptPipeline)
    (write : Writers E → list byte → option error * Writers E) : EncryptPipeline := {|
  Writers := Writers E;
  encryptStreamWithSessionKey := encryptStreamWithSessionKey E;
  encryptWriter_Write := write;
  encryptWriter_Close := encryptWriter_Close E;
  signWriter_Write := signWriter_Write E;
  signWriter_Close := signWriter_Close E;
  encBuf_Bytes := encBuf_Bytes E
|}.

(** The stand-in collaborators, taking every input for armored and failing
    to decode the armor. *)
Definition broken_armor_engine : Collaborators := {|
  EntityList := EntityList stub_engine;
  VerifyResult := VerifyResult stub_engine;
  SignatureContextName := SignatureContextName stub_engine;
  getEntities := getEntities stub_engine;
  unarmorInput := fun _ r => (r, true);
  armor_Decode := fun _ => inr (EngineError "EOF");
  ReadMessage := ReadMessage stub_engine;
  VerifyDetachedSignatureReader := VerifyDetachedSignatureReader stub_engine;
  clearsign_Decode := clearsign_Decode stub_engine;
  io_ReadAll := io_ReadAll stub_engine;
  VerifyDataReader_Read := VerifyDataReader_Read stub_engine;
  VerifySignature := VerifySignature stub_engine
|}.

(** The remaining methods of a verifying reader over the stand-in
    collaborators: all the bytes of a reader over a byte slice, and no
    metadata. *)
Definition stub_inline : VerifyInlineCall.InlineMethods := {|
  VerifyInlineCall.Metadata := unit;
  VerifyInlineCall.VerifyDataReader_ReadAll := fun r =>
    (match internalReader r with
     | bytes_NewReader b => inl b
     | _ => inr (EngineError "unexpected EOF")
     end,
     {| details := details r; internalReader := internalReader r;
        verifyKeyRing := verifyKeyRing r; verifyTime := verifyTime r;
        disableTimeCheck := disableTimeCheck r; readAll := true;
        verificationContext := verificationContext r |});
  VerifyInlineCall.GetMetadata := fun _ => tt
|}.

(** * Properties *)

(** ** The algorithm table *)

Lemma symKeyAlgos_lookup (k : string) (c : packet.CipherFunction) :
  symKeyAlgos !! k = Some c ↔ (k, c) ∈ table_entries.
Proof.
  unfold symKeyAlgos, table_entries.
  rewrite !lookup_insert_Some, lookup_empty, !elem_of_cons, elem_of_nil.
  split.
  - intros H. repeat (destruct H as [[<- <-] | [_ H]]; [tauto |]). discriminate.
  - intros H.
    repeat (destruct H as [[= -> ->] | H];
            [ repeat (first [ left; split; reflexivity | right; split; [ discriminate | ] ]) | ]).
    destruct H.
Qed.

Lemma table_code_known (k : string) (c : packet.CipherFunction) :
  symKeyAlgos !! k = Some c → c ∈ [2; 3; 7; 8; 9].
Proof.
  intros H%symKeyAlgos_lookup. unfold table_entries in H.
  rewrite !elem_of_cons, elem_of_nil in H.
  repeat (destruct H as [[= -> ->] | H]; [ rewrite !elem_of_cons; auto 10 | ]).
  destruct H.
Qed.

(** The order in which the table is written is one of the orders in which
    it may be visited. *)
Lemma table_entries_order : iteration_order table_entries.
Proof.
  unfold iteration_order. apply NoDup_Permutation.
  - unfold table_entries. repeat (apply NoDup_cons; split; [ | ]);
      try apply NoDup_nil_2; rewrite ?elem_of_cons, elem_of_nil;
      intros H; repeat (destruct H as [[=] | H]); destruct H.
  - apply NoDup_map_to_list.
  - intros [k c]. rewrite elem_of_map_to_list. symmetry. apply symKeyAlgos_lookup.
Qed.

Lemma iteration_order_lookup (order : list (string * packet.CipherFunction))
    (k : string) (c : packet.CipherFunction) :
  iteration_order order → (k, c) ∈ order ↔ symKeyAlgos !! k = Some c.
Proof.
  unfold iteration_order. intros Hp. rewrite Hp. apply elem_of_map_to_list.
Qed.

Lemma range_symKeyAlgos_found (order : list (string * packet.CipherFunction))
    (cipher : packet.CipherFunction) (algo k : string) :
  (k, cipher) ∈ order → (range_symKeyAlgos order cipher algo, cipher) ∈ order.
Proof.
  induction order as [| [k' v] rest IH]; simpl.
  - intros H. inversion H.
  - intros H. destruct (decide (v = cipher)) as [-> | Hne].
    + left.
    + right. apply IH. apply elem_of_cons in H as [[= _ ->] | H]; [ done | exact H ].
Qed.

Lemma range_symKeyAlgos_missing (order : list (string * packet.CipherFunction))
    (cipher : packet.CipherFunction) (algo : string) :
  (∀ k, (k, cipher) ∉ order) → range_symKeyAlgos order cipher algo = algo.
Proof.
  induction order as [| [k' v] rest IH]; simpl; [ done | ].
  intros H. destruct (decide (v = cipher)) as [-> | Hne].
  - exfalso. apply (H k'). left.
  - apply IH. intros k Hk. apply (H k). right. exact Hk.
Qed.

(** ** Session keys *)

(** C6. [checkSize] accepts a version-6 key exactly when it is not empty, and
    any other key exactly when its algorithm is an entry of the table and
    the key has that algorithm's key size; a rejection is an error value,
    and a key one byte longer or shorter than an accepted one is rejected
    for its size. *)
Theorem checkSize_exact_size (sk : SessionKey) :
  (if V6 sk
   then checkSize sk = None ↔ Key sk ≠ []
   else checkSize sk = None ↔
        ∃ cf, symKeyAlgos !! Algo sk = Some cf ∧ length (Key sk) = packet.KeySize cf)
  ∧ (checkSize sk = None ∨ ∃ msg, checkSize sk = Some (errors_New msg))
  ∧ (∀ key' : list byte,
       V6 sk = false → checkSize sk = None →
       length key' = S (length (Key sk)) ∨ S (length key') = length (Key sk) →
       checkSize {| V6 := false; Key := key'; Algo := Algo sk |}
       = Some (errors_New "wrong session key size")).
Proof.
  destruct sk as [v6 key algo]. unfold checkSize. simpl.
  repeat split.
  - destruct v6.
    + destruct key; simpl; split; intros H; done.
    + destruct (symKeyAlgos !! algo) as [cf |] eqn:Hcf.
      * destruct (decide (packet.KeySize cf ≠ length key)) as [Hne | Heq].
        -- split; [ done | ]. intros (cf' & [= <-] & Hlen). congruence.
        -- split; [ | done ]. intros _. exists cf. split; [ done | ].
           destruct (decide (length key = packet.KeySize cf)); [ done | ].
           exfalso. apply Heq. congruence.
      * split; [ done | ]. intros (cf' & [=] & _).
  - destruct v6.
    + destruct (decide (length key = 0%nat)); eauto.
    + destruct (symKeyAlgos !! algo); [ | eauto ].
      destruct (decide (_ ≠ _)); eauto.
  - intros key' -> Hok Hlen.
    destruct (symKeyAlgos !! algo) as [cf |]; [ | done ].
    destruct (decide (packet.KeySize cf ≠ length key)) as [| Heq]; [ done | ].
    destruct (decide (packet.KeySize cf ≠ length key')) as [| Heq']; [ done | ].
    exfalso. apply Heq. intros E. apply Heq'. lia.
Qed.

(** A 33-byte key is rejected for AES-256, next to the accepted 32-byte one. *)
Lemma checkSize_exact_size_witness :
  checkSize {| V6 := false; Key := replicate 33 x00; Algo := constants.AES256 |}
  = Some (errors_New "wrong session key size").
Proof.
  apply (proj2 (proj2 (checkSize_exact_size
           {| V6 := false; Key := replicate 32 x00; Algo := constants.AES256 |}))
           (replicate 33 x00)).
  - reflexivity.
  - vm_compute. reflexivity.
  - left. vm_compute. reflexivity.
Defined.

(** C7. Whatever order the table is visited in, [getAlgo] returns the empty
    identifier for the code zero, an identifier that the table maps to the
    code when the code is in the table, and AES-256 for any other code. *)
Theorem getAlgo_reverse_lookup (order : list (string * packet.CipherFunction))
    (cipher : packet.CipherFunction) :
  iteration_order order →
  (cipher = 0 → getAlgo order cipher = "")
  ∧ ((∃ k, symKeyAlgos !! k = Some cipher) →
     symKeyAlgos !! getAlgo order cipher = Some cipher)
  ∧ (cipher ≠ 0 → (∀ k, symKeyAlgos !! k ≠ Some cipher) →
     getAlgo order cipher = constants.AES256).
Proof.
  intros Hord. unfold getAlgo. repeat split.
  - intros ->. reflexivity.
  - intros [k Hk].
    destruct (decide (cipher = 0)) as [-> | _].
    + apply table_code_known in Hk. rewrite !elem_of_cons, elem_of_nil in Hk.
      destruct Hk as [H | [H | [H | [H | [H | []]]]]]; discriminate H.
    + apply (iteration_order_lookup order _ _ Hord).
      apply range_symKeyAlgos_found with k.
      apply (iteration_order_lookup order _ _ Hord). exact Hk.
  - intros Hnz Hmiss. destruct (decide (cipher = 0)); [ done | ].
    apply range_symKeyAlgos_missing. intros k Hk.
    apply (Hmiss k). apply (iteration_order_lookup order _ _ Hord). exact Hk.
Qed.

(** The code of triple-DES, which two identifiers map to: the identifier
    returned is mapped back to it. *)
Lemma getAlgo_reverse_lookup_witness :
  symKeyAlgos !! getAlgo (map_to_list symKeyAlgos) packet.Cipher3DES
  = Some packet.Cipher3DES.
Proof.
  apply (getAlgo_reverse_lookup (map_to_list symKeyAlgos) packet.Cipher3DES).
  - unfold iteration_order. reflexivity.
  - exists constants.TripleDES. vm_compute. reflexivity.
Defined.

(** [getAlgo] on the table as written and as written backwards: the alias
    returned for triple-DES depends on the order of the visit. *)
Example getAlgo_zero : getAlgo table_entries 0 = "".
Proof. reflexivity. Qed.

Example getAlgo_unknown : getAlgo table_entries 42 = constants.AES256.
Proof. reflexivity. Qed.

Example getAlgo_3des_forwards : getAlgo table_entries packet.Cipher3DES = constants.ThreeDES.
Proof. reflexivity. Qed.

Example getAlgo_3des_backwards :
  getAlgo (reverse table_entries) packet.Cipher3DES = constants.TripleDES.
Proof. reflexivity. Qed.

Example checkSize_zero_key : checkSize zero_key_AES256 = None.
Proof. vm_compute. reflexivity. Qed.

Example checkSize_v6_empty :
  checkSize (NewSessionKeyFromToken [] "") = Some (errors_New "empty session key").
Proof. reflexivity. Qed.

(** ** The integrity-checking reader *)

(** Observing a reader does not change what it returns nor what it does to
    the store. *)
Lemma observed_Read {W : Type} (cr : checkReader W) (w : W) (c : counters)
    (len_buf : nat) :
  (checkReader_Read (observed cr) (w, c) len_buf).1
  = (checkReader_Read cr w len_buf).1
  ∧ (checkReader_Read (observed cr) (w, c) len_buf).2.1
    = (checkReader_Read cr w len_buf).2.
Proof.
  unfold checkReader_Read. simpl.
  destruct (body_Read cr w len_buf) as [[n e] w1]. simpl.
  destruct e as [[] |]; simpl; try done.
  destruct (decrypted_Close cr w1) as [[err |] w2]; done.
Qed.

(** One [Read] enters [Close] once if the inner read reported [io.EOF], and
    not at all otherwise. *)
Lemma observed_Read_counts {W : Type} (cr : checkReader W) (w : W) (c : counters)
    (len_buf : nat) :
  let c' := (checkReader_Read (observed cr) (w, c) len_buf).2.2 in
  (closes c' + eofs_seen c = eofs_seen c' + closes c)%nat
  ∧ (closes c' = closes c ∨ closes c' = S (closes c)).
Proof.
  unfold checkReader_Read. simpl.
  destruct (body_Read cr w len_buf) as [[n e] w1]. simpl.
  destruct e as [[] |]; simpl; try (split; [ lia | auto ]).
  destruct (decrypted_Close cr w1) as [[err |] w2]; simpl; split; (lia || auto).
Qed.

Lemma read_calls_cons {W : Type} (Read : W → nat → ReadResult * W) (w : W)
    (len_buf : nat) (rest : list nat) :
  read_calls Read w (len_buf :: rest)
  = ((Read w len_buf).1 :: (read_calls Read (Read w len_buf).2 rest).1,
     (read_calls Read (Read w len_buf).2 rest).2).
Proof.
  simpl. destruct (Read w len_buf) as [r w1]. simpl.
  destruct (read_calls Read w1 rest) as [rs w2]. reflexivity.
Qed.

(** C2, as stated, fails: a second [Read] after the end of the stream finds
    the inner reader at [io.EOF] again and enters [Close] a second time. *)
Lemma checkReader_closes_twice :
  ¬ finalized_at_most_once sk_checkReader drained_body [MinRead; MinRead].
Proof. unfold finalized_at_most_once. vm_compute. lia. Qed.

(** C2, amended. Over any sequence of [Read] calls, [Close] is entered once
    for each call whose inner read reported [io.EOF] and at no other time,
    so once by the first end of stream; the calls return and leave the
    store as those of the unobserved reader do. *)
Theorem checkReader_closes_per_EOF {W : Type} (cr : checkReader W) (w : W)
    (lens : list nat) :
  let run := read_calls (checkReader_Read (observed cr)) (w, no_calls) lens in
  closes run.2.2 = eofs_seen run.2.2
  ∧ run.1 = (read_calls (checkReader_Read cr) w lens).1
  ∧ run.2.1 = (read_calls (checkReader_Read cr) w lens).2.
Proof.
  cut (∀ c : counters,
         let run := read_calls (checkReader_Read (observed cr)) (w, c) lens in
         (closes run.2.2 + eofs_seen c = eofs_seen run.2.2 + closes c)%nat
         ∧ run.1 = (read_calls (checkReader_Read cr) w lens).1
         ∧ run.2.1 = (read_calls (checkReader_Read cr) w lens).2).
  { intros H. destruct (H no_calls) as (Hc & Hr & Hs). simpl in Hc.
    repeat split; [ lia | exact Hr | exact Hs ]. }
  revert w. induction lens as [| len_buf rest IH]; intros w c.
  - simpl. repeat split; lia.
  - rewrite !read_calls_cons. simpl.
    pose proof (observed_Read cr w c len_buf) as [Hr Hs].
    pose proof (observed_Read_counts cr w c len_buf) as [Hc _].
    destruct (checkReader_Read (observed cr) (w, c) len_buf) as [r [w1 c1]].
    simpl in *. subst w1.
    destruct (IH (checkReader_Read cr w len_buf).2 c1) as (IHc & IHr & IHs).
    repeat split; [ lia | congruence | exact IHs ].
Qed.

(** A drain by [ReadFrom] stops at the first end of stream or error: it
    enters [Close] at most once. *)
Lemma ReadFrom_closes_at_most_once {W : Type} (cr : checkReader W) (fuel : nat) :
  ∀ (buf : list byte) (w : W) (c : counters) res (w' : W) (c' : counters),
    ReadFrom (checkReader_Read (observed cr)) fuel buf (w, c) = Some (res, (w', c')) →
    closes c' = closes c ∨ closes c' = S (closes c).
Proof.
  induction fuel as [| fuel IH]; intros buf w c res w' c'; simpl; [ done | ].
  pose proof (observed_Read_counts cr w c MinRead) as [_ Hstep].
  unfold checkReader_Read in *. simpl in *.
  destruct (body_Read cr w MinRead) as [[n e] w1]. simpl in *.
  destruct e as [[] |]; simpl in *;
    try (intros [= _ _ <-]; exact Hstep).
  - destruct (decrypted_Close cr w1) as [[[] |] w2]; simpl in *;
      intros [= _ _ <-]; exact Hstep.
  - intros H. apply IH in H. exact H.
Qed.



(** ** Decryption with a session key *)

(** What [ReadFrom] returns is the buffer followed by the bytes of every
    [Read] it made, in order. *)
Lemma ReadFrom_collects {W : Type} (Read : W → nat → ReadResult * W) (fuel : nat) :
  ∀ (buf : list byte) (w : W) (data : list byte) (e : option error) (w' : W),
    ReadFrom Read fuel buf w = Some ((data, e), w') →
    ∃ k : nat,
      (k ≤ fuel)%nat
      ∧ data = buf ++ concat (read_calls Read w (replicate k MinRead)).1.*1
      ∧ w' = (read_calls Read w (replicate k MinRead)).2.
Proof.
  induction fuel as [| fuel IH]; intros buf w data e w'; simpl; [ done | ].
  destruct (Read w MinRead) as [[m e1] w1] eqn:Hread.
  assert (Hone : read_calls Read w (replicate 1 MinRead) = ([(m, e1)], w1)).
  { simpl. rewrite Hread. reflexivity. }
  destruct e1 as [err |].
  - assert (Hend : Some ((buf ++ m, match err with io_EOF => None | _ => Some err end), w1)
                   = Some ((data, e), w') → ∃ k : nat,
              (k ≤ S fuel)%nat
              ∧ data = buf ++ concat (read_calls Read w (replicate k MinRead)).1.*1
              ∧ w' = (read_calls Read w (replicate k MinRead)).2).
    { intros [= <- _ <-]. exists 1%nat. rewrite Hone. simpl.
      rewrite app_nil_r. repeat split. lia. }
    destruct err; exact Hend.
  - intros H. apply IH in H as (k & Hk & -> & ->).
    exists (S k). split; [ lia | ].
    change (replicate (S k) MinRead) with (MinRead :: replicate k MinRead).
    rewrite read_calls_cons, Hread. simpl. rewrite app_assoc. done.
Qed.

(** C1. When the stream is set up and the body is read to its end without
    error, decryption with a verification key ring returns the message
    holding all the bytes that the reads of the body gave, next to whatever error the verification of
    the embedded signature gave: a signature failure does not take the
    plaintext away.  [DecryptAndVerifyWithContext] and [DecryptAndVerify]
    are this function, the latter without context. *)
Theorem decrypt_keeps_plaintext (D : DecryptPipeline) (fuel : nat) (sk : SessionKey)
    (dataPacket : list byte) (kr : KeyRing) (verifyTime : Z)
    (ctx : option VerificationContext) (md md1 : SessionKeys.MessageDetails D)
    (messageBuf : list byte) :
  decryptStreamWithSessionKey D sk dataPacket (Some kr) ctx false = inl md →
  ReadFrom (UnverifiedBody_Read D) fuel [] md = Some ((messageBuf, None), md1) →
  (∃ message : PlainMessage,
     decryptWithSessionKeyAndContext D fuel sk dataPacket (Some kr) verifyTime ctx
     = Some (Some message,
             verifyDetailsSignature D (processSignatureExpiration D md1 verifyTime) kr ctx)
     ∧ Data message = messageBuf)
  ∧ (∃ k : nat,
       messageBuf = concat (read_calls (UnverifiedBody_Read D) md (replicate k MinRead)).1.*1)
  ∧ DecryptAndVerifyWithContext D fuel sk dataPacket (Some kr) verifyTime ctx
    = decryptWithSessionKeyAndContext D fuel sk dataPacket (Some kr) verifyTime ctx
  ∧ DecryptAndVerify D fuel sk dataPacket (Some kr) verifyTime
    = decryptWithSessionKeyAndContext D fuel sk dataPacket (Some kr) verifyTime None.
Proof.
  intros Hstream Hread. split; [ | split; [ | split; reflexivity ] ].
  - unfold decryptWithSessionKeyAndContext. rewrite Hstream, Hread.
    eexists. split; reflexivity.
  - apply ReadFrom_collects in Hread as (k & _ & Hdata & _).
    exists k. exact Hdata.
Qed.

(** The plaintext comes back with the error of a signer that is not in the
    key ring. *)
Lemma decrypt_keeps_plaintext_witness :
  ∃ message : PlainMessage,
    decryptWithSessionKeyAndContext (sessionKeyDecryption null_engine) 2
      zero_key_AES256 hello (Some {| entities := [] |}) 0 None
    = Some (Some message, Some (EngineError "openpgp: signature made by unknown entity"))
    ∧ Data message = hello.
Proof.
  refine (proj1 (decrypt_keeps_plaintext (sessionKeyDecryption null_engine) 2
            zero_key_AES256 hello {| entities := [] |} 0 None
            {| ds_literal := {| lit_IsUTF8 := false; FileName := ""; Time := 0 |};
               ds_unread := hello; ds_tag_ok := true |}
            drained_body hello _ _)); vm_compute; reflexivity.
Defined.

(** ** Round trip *)

Lemma GetCipherFunc_known (sk : SessionKey) (cf : packet.CipherFunction) :
  V6 sk = false → symKeyAlgos !! Algo sk = Some cf → GetCipherFunc sk = (cf, None).
Proof. unfold GetCipherFunc. intros -> ->. reflexivity. Qed.

(** [ReadFrom] drains an authentic decrypted body: every byte, no error. *)
Lemma ReadFrom_authentic_body (lit : LiteralData) (fuel : nat) :
  ∀ (buf unread : list byte),
    (length unread < fuel)%nat →
    ReadFrom (checkReader_Read sk_checkReader) fuel buf
      {| ds_literal := lit; ds_unread := unread; ds_tag_ok := true |}
    = Some ((buf ++ unread, None),
            {| ds_literal := lit; ds_unread := []; ds_tag_ok := true |}).
Proof.
  induction fuel as [| fuel IH]; intros buf unread Hlen; [ lia | ].
  destruct unread as [| b rest].
  - simpl. rewrite app_nil_r. reflexivity.
  - change (ReadFrom (checkReader_Read sk_checkReader) (S fuel) buf
              {| ds_literal := lit; ds_unread := b :: rest; ds_tag_ok := true |})
      with (ReadFrom (checkReader_Read sk_checkReader) fuel
              (buf ++ take MinRead (b :: rest))
              {| ds_literal := lit; ds_unread := drop MinRead (b :: rest);
                 ds_tag_ok := true |}).
    rewrite IH.
    + rewrite <- app_assoc, take_drop. reflexivity.
    + rewrite length_drop. simpl in *. unfold MinRead. lia.
Qed.

(** [ReadFrom] on a decrypted body whose tag does not match: the error of
    the finalisation, in place of the end of the stream. *)
Lemma ReadFrom_tampered_body (lit : LiteralData) (fuel : nat) :
  ∀ (buf unread : list byte),
    (length unread < fuel)%nat →
    ReadFrom (checkReader_Read sk_checkReader) fuel buf
      {| ds_literal := lit; ds_unread := unread; ds_tag_ok := false |}
    = Some ((buf ++ unread, Some (EngineError "openpgp: invalid data: MDC hash mismatch")),
            {| ds_literal := lit; ds_unread := []; ds_tag_ok := false |}).
Proof.
  induction fuel as [| fuel IH]; intros buf unread Hlen; [ lia | ].
  destruct unread as [| b rest].
  - simpl. rewrite app_nil_r. reflexivity.
  - change (ReadFrom (checkReader_Read sk_checkReader) (S fuel) buf
              {| ds_literal := lit; ds_unread := b :: rest; ds_tag_ok := false |})
      with (ReadFrom (checkReader_Read sk_checkReader) fuel
              (buf ++ take MinRead (b :: rest))
              {| ds_literal := lit; ds_unread := drop MinRead (b :: rest);
                 ds_tag_ok := false |}).
    rewrite IH.
    + rewrite <- app_assoc, take_drop. reflexivity.
    + rewrite length_drop. simpl in *. unfold MinRead. lia.
Qed.

(** A data packet whose integrity tag does not match decrypts to an error
    and no message, whatever bytes it held. *)
Lemma decrypt_tampered_packet_fails (P : Primitives) (sk : SessionKey)
    (cf : packet.CipherFunction) (dataPacket body : list byte) (lit : LiteralData)
    (fuel : nat) :
  V6 sk = false →
  symKeyAlgos !! Algo sk = Some cf →
  unseal P cf (Key sk) dataPacket = Some (lit, body, false) →
  (length body < fuel)%nat →
  Decrypt (sessionKeyDecryption P) fuel sk dataPacket
  = Some (None,
          Some (errors_Wrap (EngineError "openpgp: invalid data: MDC hash mismatch")
                  "gopenpgp: error in reading message body")).
Proof.
  intros Hv6 Halgo Hopen Hfuel.
  unfold Decrypt, DecryptAndVerify, decryptWithSessionKeyAndContext. simpl.
  unfold sk_decryptStream.
  rewrite (GetCipherFunc_known sk cf Hv6 Halgo), Hopen.
  rewrite ReadFrom_tampered_body by exact Hfuel. reflexivity.
Qed.

(** C5. With an engine whose cipher is sound, for every session key of a
    supported algorithm whose length is that algorithm's key size and every
    message: [Encrypt] returns a data packet, and [Decrypt] of that packet
    with the same key returns, without error, a message with the original
    bytes. *)
Theorem session_key_round_trip (P : Primitives) (sk : SessionKey)
    (message : PlainMessage) (cf : packet.CipherFunction) (fuel : nat) :
  sound_cipher P →
  V6 sk = false →
  symKeyAlgos !! Algo sk = Some cf →
  length (Key sk) = packet.KeySize cf →
  (length (Data message) < fuel)%nat →
  ∃ (dataPacket : list byte) (plain : PlainMessage),
    Encrypt (sessionKeyEncryption P) sk message = inl dataPacket
    ∧ Decrypt (sessionKeyDecryption P) fuel sk dataPacket = Some (Some plain, None)
    ∧ Data plain = Data message.
Proof.
  intros Hsound Hv6 Halgo Hsize Hfuel.
  pose proof (GetCipherFunc_known sk cf Hv6 Halgo) as Hcf.
  destruct (Hsound cf (Key sk) false
              {| lit_IsUTF8 := IsUTF8 (Metadata message);
                 FileName := Filename (Metadata message);
                 Time := ModTime (Metadata message) mod 2 ^ 32 |}
              (Data message) Hsize) as [lit' Hopen].
  unfold Encrypt, encryptWithSessionKey. simpl.
  unfold sk_encryptStream. rewrite Hcf. simpl.
  eexists. eexists. split; [ reflexivity | ].
  unfold Decrypt, DecryptAndVerify, decryptWithSessionKeyAndContext. simpl.
  unfold sk_decryptStream. rewrite Hcf.
  unfold GetBinary. rewrite Hopen.
  rewrite ReadFrom_authentic_body by exact Hfuel.
  split; reflexivity.
Qed.

Lemma null_engine_sound : sound_cipher null_engine.
Proof. intros cf key compress lit body _. eexists. reflexivity. Qed.

(** The scenario of the specification: a key of 32 zero bytes, AES-256, the
    plaintext "hello". *)
Lemma session_key_round_trip_witness :
  ∃ (dataPacket : list byte) (plain : PlainMessage),
    Encrypt (sessionKeyEncryption null_engine) zero_key_AES256
      {| Data := hello;
         Metadata := {| IsUTF8 := false; Filename := ""; ModTime := 0 |} |}
    = inl dataPacket
    ∧ Decrypt (sessionKeyDecryption null_engine) 6 zero_key_AES256 dataPacket
      = Some (Some plain, None)
    ∧ Data plain = hello.
Proof.
  apply (session_key_round_trip null_engine zero_key_AES256
           {| Data := hello;
              Metadata := {| IsUTF8 := false; Filename := ""; ModTime := 0 |} |}
           packet.CipherAES256 6 null_engine_sound).
  - reflexivity.
  - vm_compute. reflexivity.
  - vm_compute. reflexivity.
  - vm_compute. lia.
Defined.

(** ** The verification handle *)




(** ** Detached verification and text signatures *)

(** C8, as stated, fails: only the first candidate is looked at, so with a
    binary candidate ahead of a text one the body is exposed unfiltered. *)
Lemma text_candidate_behind_binary_not_sanitized :
  ¬ text_candidate_sanitized stub_engine.
Proof.
  intros H.
  specialize (H (bytes_NewReader hello) (bytes_NewReader [x00; x01]) None None false
                None ticking_clock 0%nat 1%nat _ eq_refl).
  simpl in H. discriminate H.
  exists {| SigType := 1; IssuerKeyId := 0 |}. split; [ | reflexivity ].
  right. left.
Qed.

(** C8, amended. The reader exposed by the detached path is the engine's
    body reader passed through the filter when the first signature
    candidate has the text type, and the engine's body reader itself when
    there is no candidate or the first one has another type. *)
Theorem detached_reader_sanitized_by_first_candidate (C : Collaborators)
    (data signature : Reader) (kr : option KeyRing)
    (ctx : option VerificationContext) (disable : bool) (config : option Config)
    (clock : Clock) (samples samples' : nat) (reader : VerifyDataReader) :
  verifyingDetachedReader C data signature kr ctx disable config clock samples
  = (inl reader, samples') →
  (SigType <$> head (SignatureCandidates (details reader)) = Some SigTypeText →
   internalReader reader = NewSanitizeReader (UnverifiedBody (details reader)))
  ∧ (SigType <$> head (SignatureCandidates (details reader)) ≠ Some SigTypeText →
     internalReader reader = UnverifiedBody (details reader)).
Proof.
  unfold verifyingDetachedReader.
  destruct (VerifyDetachedSignatureReader C _ _ _ _) as [md | err]; [ | discriminate ].
  intros [= <- _]. simpl.
  destruct (SignatureCandidates md) as [| c0 rest]; simpl.
  - split; [ discriminate | reflexivity ].
  - destruct (decide (SigType c0 = SigTypeText)) as [Heq | Hne].
    + split; [ reflexivity | ]. intros Hn. exfalso. apply Hn. congruence.
    + split; [ | reflexivity ]. intros [= Heq]. contradiction.
Qed.

(** A text signature alone: the reader is filtered. *)
Lemma detached_reader_sanitized_by_first_candidate_witness :
  ∃ reader : VerifyDataReader,
    verifyingDetachedReader stub_engine (bytes_NewReader hello) (bytes_NewReader [x01])
      None None false None ticking_clock 0
    = (inl reader, 1%nat)
    ∧ internalReader reader = NewSanitizeReader (UnverifiedBody (details reader)).
Proof.
  eexists. split; [ reflexivity | ].
  refine (proj1 (detached_reader_sanitized_by_first_candidate stub_engine
            (bytes_NewReader hello) (bytes_NewReader [x01]) None None false None
            ticking_clock 0 1 _ _) _); reflexivity.
Defined.

(** ** Cleartext messages *)

Lemma slice_to_all_but_last (s : list byte) (b : byte) :
  slice_to (s ++ [b]) (Z.of_nat (length (s ++ [b])) - 1) = Returns s.
Proof.
  unfold slice_to. rewrite length_app. simpl.
  destruct (decide _) as [_ | Hn]; [ | lia ].
  f_equal. apply take_app_length'. lia.
Qed.

Lemma slice_to_empty_panics :
  slice_to [] (Z.of_nat (length (@nil byte)) - 1)
  = Panics "runtime error: slice bounds out of range".
Proof. reflexivity. Qed.

(** C9. For a cleartext message that decodes, whose signature section reads
    and whose verification ends without a non-signature error: when the
    decoded plaintext is a text followed by the one terminator of the
    framing, the result holds that text, which is the decoded plaintext
    less exactly its last byte. *)
Theorem cleartext_strips_one_terminator (C : Collaborators) (vh : verifyHandle)
    (fuel : nat) (armored : list byte) (samples samples' : nat) (block : Block)
    (signature original : list byte) (terminator : byte) (result : VerifyResult C) :
  clearsign_Decode C armored = Some block →
  io_ReadAll C (ArmoredSignature_Body block) = inl signature →
  verifyDetachedSignature C vh fuel (bytes_NewReader (Bytes block)) signature samples
  = (Some (inl result), samples') →
  Plaintext block = original ++ [terminator] →
  ∃ res : VerifyCleartextResult C,
    verifyCleartext C vh fuel armored samples = (Some (Returns (inl res)), samples')
    ∧ vcr_VerifyResult res = result
    ∧ cleartext res = original
    ∧ cleartext res ++ [terminator] = Plaintext block
    ∧ S (length (cleartext res)) = length (Plaintext block).
Proof.
  intros Hdecode Hsig Hverify Hplain.
  unfold verifyCleartext. rewrite Hdecode, Hsig, Hverify, Hplain.
  rewrite slice_to_all_but_last.
  eexists. split; [ reflexivity | ]. simpl.
  repeat split. rewrite length_app. simpl. lia.
Qed.

(** The text "hello" framed by one line feed. *)
Lemma cleartext_strips_one_terminator_witness :
  ∃ res : VerifyCleartextResult stub_engine,
    verifyCleartext stub_engine (defaultVerifyHandle ticking_clock) 1
      (hello ++ [lf]) 0
    = (Some (Returns (inl res)), 1%nat)
    ∧ vcr_VerifyResult res = 1700000000
    ∧ cleartext res = hello
    ∧ cleartext res ++ [lf] = hello ++ [lf]
    ∧ S (length (cleartext res)) = length (hello ++ [lf]).
Proof.
  refine (cleartext_strips_one_terminator stub_engine
            (defaultVerifyHandle ticking_clock) 1 (hello ++ [lf]) 0 1
            {| Plaintext := hello ++ [lf]; Bytes := hello ++ [lf];
               ArmoredSignature_Body := bytes_NewReader [] |}
            [] hello lf 1700000000 _ _ _ _); reflexivity.
Defined.

(** C10. The last byte is sliced off without a test of the length: for an
    accepted block the call returns when the decoded plaintext is not
    empty, with all of it but its last byte, and panics when it is empty,
    the upper bound of the slice being negative. *)
Theorem cleartext_slice_needs_nonempty (C : Collaborators) (vh : verifyHandle)
    (fuel : nat) (armored : list byte) (samples samples' : nat) (block : Block)
    (signature : list byte) (result : VerifyResult C) :
  clearsign_Decode C armored = Some block →
  io_ReadAll C (ArmoredSignature_Body block) = inl signature →
  verifyDetachedSignature C vh fuel (bytes_NewReader (Bytes block)) signature samples
  = (Some (inl result), samples') →
  (Plaintext block ≠ [] →
   verifyCleartext C vh fuel armored samples
   = (Some (Returns (inl {| vcr_VerifyResult := result;
                            cleartext := removelast (Plaintext block) |})), samples'))
  ∧ (Plaintext block = [] →
     Z.of_nat (length (Plaintext block)) - 1 < 0
     ∧ verifyCleartext C vh fuel armored samples
       = (Some (Panics "runtime error: slice bounds out of range"), samples')).
Proof.
  intros Hdecode Hsig Hverify.
  unfold verifyCleartext. rewrite Hdecode, Hsig, Hverify.
  split.
  - intros Hne.
    destruct (exists_last Hne) as (text & b & ->).
    rewrite slice_to_all_but_last, removelast_last. reflexivity.
  - intros ->. split; [ simpl; lia | ]. rewrite slice_to_empty_panics. reflexivity.
Qed.

(** A cleartext message that decodes to an empty plaintext: the call panics. *)
Lemma cleartext_slice_needs_nonempty_witness :
  verifyCleartext stub_engine (defaultVerifyHandle ticking_clock) 1 [] 0
  = (Some (Panics "runtime error: slice bounds out of range"), 1%nat).
Proof.
  refine (proj2 (proj2 (cleartext_slice_needs_nonempty stub_engine
            (defaultVerifyHandle ticking_clock) 1 [] 0 1
            {| Plaintext := []; Bytes := []; ArmoredSignature_Body := bytes_NewReader [] |}
            [] 1700000000 _ _ _) _)); reflexivity.
Defined.

(** * Further properties *)

(** ** Making session keys *)

Lemma io_ReadFull_filled {R : Type} (Read : R → nat → ReadResult * R) (fuel : nat)
    (size : nat) :
  ∀ (filled : list byte) (r : R) (buf : list byte) (e : option error) (r' : R),
    (length filled ≤ size)%nat →
    io_ReadFull Read fuel size filled r = Some ((buf, e), r') →
    (length buf ≤ size)%nat ∧ (e = None → length buf = size).
Proof.
  induction fuel as [| fuel IH]; intros filled r buf e r' Hle; simpl.
  - destruct (decide (size ≤ length filled)%nat); [ | done ].
    intros [= <- <- _]. split; [ done | intros _; lia ].
  - destruct (decide (size ≤ length filled)%nat).
    { intros [= <- <- _]. split; [ done | intros _; lia ]. }
    destruct (Read r (size - length filled)%nat) as [[m e1] r1].
    assert (Hle1 : (length (filled ++ take (size - length filled) m) ≤ size)%nat).
    { rewrite length_app, length_take. lia. }
    destruct e1 as [err |]; [ | apply IH; exact Hle1 ].
    destruct (decide (size ≤ _)%nat).
    { intros [= <- <- _]. split; [ done | intros _; lia ]. }
    destruct (decide (_ ∧ _)); intros [= <- <- _]; split; done.
Qed.

(** X1. A token that [RandomToken] returns has exactly the size asked for. *)
Theorem RandomToken_length (S : RandomSource) (fuel : nat) (size : Z) (r r' : Rand S)
    (token : list byte) :
  RandomToken S fuel size r = Some (Returns (inl token), r') →
  Z.of_nat (length token) = size.
Proof.
  unfold RandomToken. destruct (decide (size < 0)); [ done | ].
  destruct (io_ReadFull _ fuel _ [] r) as [[[buf [err |]] r1] |] eqn:Hfull; try done.
  intros [= <- _].
  apply io_ReadFull_filled in Hfull as [_ Hlen]; [ | simpl; lia ].
  rewrite Hlen by reflexivity. lia.
Qed.

Lemma RandomToken_length_witness :
  Z.of_nat (length (replicate 24 x2a)) = 24.
Proof.
  apply (RandomToken_length filling_source 1 24 0%nat 24%nat). reflexivity.
Defined.

(** X2. [RandomToken] at the bounds: a size of zero gives the empty token
    without a read of the source, a negative size panics, and a source
    that is at its end gives the wrapped [io.EOF] and no token. *)
Theorem RandomToken_bounds (S : RandomSource) (fuel : nat) (size : Z) (r : Rand S) :
  (size = 0 → RandomToken S fuel size r = Some (Returns (inl []), r))
  ∧ (size < 0 →
     RandomToken S fuel size r
     = Some (Panics "runtime error: makeslice: len out of range", r))
  ∧ (0 < size → ∀ r1 : Rand S,
       Random_Read S r (Z.to_nat size) = (([], Some io_EOF), r1) →
       RandomToken S (Datatypes.S fuel) size r
       = Some (Returns (inr (errors_Wrap io_EOF
                 "gopenpgp: error in generating random token")), r1)).
Proof.
  unfold RandomToken. repeat split.
  - intros ->. simpl. destruct fuel; reflexivity.
  - intros Hneg. destruct (decide (size < 0)); [ reflexivity | lia ].
  - intros Hpos r1 Hread.
    destruct (decide (size < 0)); [ lia | ].
    simpl. destruct (decide (Z.to_nat size ≤ 0)%nat); [ lia | ].
    rewrite Nat.sub_0_r, Hread, take_nil.
    repeat case_decide; try reflexivity; try (simpl in *; lia).
Qed.

Lemma RandomToken_bounds_witness :
  RandomToken empty_source 1 16 tt
  = Some (Returns (inr (errors_Wrap io_EOF
            "gopenpgp: error in generating random token")), tt).
Proof.
  refine (proj2 (proj2 (RandomToken_bounds empty_source 0 16 tt)) _ tt _).
  - lia.
  - reflexivity.
Defined.

(** X3. A session key that [GenerateSessionKeyAlgo] returns is for the
    algorithm asked for, is not in version-6 mode, has the key size of that
    algorithm, passes [checkSize] and resolves to the algorithm's cipher. *)
Theorem GenerateSessionKeyAlgo_valid (S : RandomSource) (fuel : nat) (algo : string)
    (r r' : Rand S) (sk : SessionKey) :
  GenerateSessionKeyAlgo S fuel algo r = Some (Returns (inl sk), r') →
  Algo sk = algo
  ∧ V6 sk = false
  ∧ checkSize sk = None
  ∧ ∃ cf : packet.CipherFunction,
      symKeyAlgos !! algo = Some cf
      ∧ length (Key sk) = packet.KeySize cf
      ∧ GetCipherFunc sk = (cf, None).
Proof.
  unfold GenerateSessionKeyAlgo.
  destruct (symKeyAlgos !! algo) as [cf |] eqn:Hcf; [ | done ].
  unfold RandomToken. destruct (decide (_ < 0)); [ done | ].
  destruct (io_ReadFull _ fuel _ [] r) as [[[token [err |]] r1] |] eqn:Hfull;
    try done.
  intros [= <- _].
  apply io_ReadFull_filled in Hfull as [_ Hlen]; [ | simpl; lia ].
  specialize (Hlen eq_refl). rewrite Nat2Z.id in Hlen.
  unfold checkSize, GetCipherFunc. simpl. rewrite Hcf.
  repeat split.
  - destruct (decide (packet.KeySize cf ≠ length token)); [ congruence | done ].
  - exists cf. done.
Qed.

Lemma GenerateSessionKeyAlgo_valid_witness :
  Algo {| V6 := false; Key := replicate 16 x2a; Algo := constants.CAST5 |}
  = constants.CAST5
  ∧ V6 {| V6 := false; Key := replicate 16 x2a; Algo := constants.CAST5 |} = false
  ∧ checkSize {| V6 := false; Key := replicate 16 x2a; Algo := constants.CAST5 |} = None
  ∧ ∃ cf : packet.CipherFunction,
      symKeyAlgos !! constants.CAST5 = Some cf
      ∧ length (Key {| V6 := false; Key := replicate 16 x2a; Algo := constants.CAST5 |})
        = packet.KeySize cf
      ∧ GetCipherFunc {| V6 := false; Key := replicate 16 x2a; Algo := constants.CAST5 |}
        = (cf, None).
Proof.
  apply (GenerateSessionKeyAlgo_valid filling_source 1 constants.CAST5 0%nat 16%nat).
  vm_compute. reflexivity.
Defined.

(** X4. [GenerateSessionKeyAlgo] does not panic; for an algorithm that is
    not in the table it returns an error without a read of the source of
    randomness; and the only error of [GenerateSessionKey] is a failure of
    that source. *)
Theorem GenerateSessionKeyAlgo_unknown (S : RandomSource) (fuel : nat) (algo : string)
    (r : Rand S) :
  (∀ msg r', GenerateSessionKeyAlgo S fuel algo r ≠ Some (Panics msg, r'))
  ∧ (symKeyAlgos !! algo = None →
     GenerateSessionKeyAlgo S fuel algo r
     = Some (Returns (inr (errors_New
               "gopenpgp: unknown symmetric key generation algorithm")), r))
  ∧ (∀ e r', GenerateSessionKey S fuel r = Some (Returns (inr e), r') →
     ∃ cause, e = errors_Wrap cause "gopenpgp: error in generating random token").
Proof.
  unfold GenerateSessionKey, GenerateSessionKeyAlgo. repeat split.
  - intros msg r'.
    destruct (symKeyAlgos !! algo) as [cf |]; [ | done ].
    unfold RandomToken. destruct (decide (_ < 0)); [ lia | ].
    destruct (io_ReadFull _ _ _ _ _) as [[[buf [err |]] r1] |]; done.
  - intros ->. reflexivity.
  - intros e r'.
    change (symKeyAlgos !! constants.AES256) with (Some packet.CipherAES256).
    unfold RandomToken. destruct (decide (_ < 0)); [ done | ].
    destruct (io_ReadFull _ _ _ _ _) as [[[buf [err |]] r1] |]; try done.
    intros [= <- _]. eexists. reflexivity.
Qed.

Lemma GenerateSessionKeyAlgo_unknown_witness :
  GenerateSessionKeyAlgo filling_source 0 "blowfish" 0%nat
  = Some (Returns (inr (errors_New
            "gopenpgp: unknown symmetric key generation algorithm")), 0%nat).
Proof.
  refine (proj1 (proj2 (GenerateSessionKeyAlgo_unknown filling_source 0 "blowfish" 0%nat)) _).
  vm_compute. reflexivity.
Defined.

(** ** Session keys from a decrypted key packet *)

Lemma empty_not_in_table : symKeyAlgos !! "" = None.
Proof. reflexivity. Qed.

Lemma range_symKeyAlgos_result (order : list (string * packet.CipherFunction))
    (cipher : packet.CipherFunction) (algo : string) :
  (range_symKeyAlgos order cipher algo = algo ∧ ∀ k, (k, cipher) ∉ order)
  ∨ (range_symKeyAlgos order cipher algo, cipher) ∈ order.
Proof.
  induction order as [| [k v] rest IH]; simpl.
  - left. split; [ done | ]. intros k H. inversion H.
  - destruct (decide (v = cipher)) as [-> | Hne].
    + right. left.
    + destruct IH as [[Heq Hmiss] | Hin].
      * left. split; [ exact Heq | ]. intros k' H.
        apply elem_of_cons in H as [[= _ ->] | H]; [ done | ].
        exact (Hmiss k' H).
      * right. right. exact Hin.
Qed.

(** The loop over the table, started from the empty identifier: either the
    code is in no entry and the identifier stays empty, or the identifier
    found is one the table maps to the code. *)
Lemma range_symKeyAlgos_cases (order : list (string * packet.CipherFunction))
    (cipher : packet.CipherFunction) :
  iteration_order order →
  (range_symKeyAlgos order cipher "" = "" ∧ ∀ k, symKeyAlgos !! k ≠ Some cipher)
  ∨ (range_symKeyAlgos order cipher "" ≠ ""
     ∧ symKeyAlgos !! range_symKeyAlgos order cipher "" = Some cipher).
Proof.
  intros Hord.
  destruct (range_symKeyAlgos_result order cipher "") as [[Heq Hmiss] | Hin].
  - left. split; [ exact Heq | ]. intros k Hk.
    apply (Hmiss k). apply (iteration_order_lookup order _ _ Hord). exact Hk.
  - right. apply (iteration_order_lookup order _ _ Hord) in Hin.
    split; [ | exact Hin ]. intros Heq. rewrite Heq, empty_not_in_table in Hin.
    discriminate Hin.
Qed.

(** X5. A key packet of a version other than 6 gives a session key exactly
    when its cipher code is in the table and its key has that cipher's key
    size, whatever the order in which the table is visited. *)
Theorem newSessionKeyFromEncrypted_accepts (order : list (string * packet.CipherFunction))
    (fmt_v : packet.CipherFunction → string) (ek : EncryptedKey) :
  iteration_order order →
  Version ek ≠ 6 →
  (∃ sk, newSessionKeyFromEncrypted order fmt_v ek = inl sk)
  ↔ (∃ k, symKeyAlgos !! k = Some (CipherFunc ek))
    ∧ length (ek_Key ek) = packet.KeySize (CipherFunc ek).
Proof.
  intros Hord Hv. unfold newSessionKeyFromEncrypted, checkSize. simpl.
  rewrite bool_decide_eq_false_2 by exact Hv.
  destruct (range_symKeyAlgos_cases order (CipherFunc ek) Hord)
    as [[Heq Hmiss] | [Hne Hfound]].
  - rewrite Heq, empty_not_in_table.
    split.
    + destruct (decide (_ ∧ _)); intros [sk H]; discriminate H.
    + intros [[k Hk] _]. destruct (Hmiss k Hk).
  - destruct (decide (_ ∧ _)) as [[Hempty _] | _]; [ done | ].
    rewrite Hfound.
    destruct (decide (packet.KeySize (CipherFunc ek) ≠ length (ek_Key ek))) as [Hsz | Hsz].
    + split; [ intros [sk H]; discriminate H | ]. intros [_ Hlen]. congruence.
    + split; [ | eauto ]. intros _. split; [ eauto | ].
      destruct (decide (length (ek_Key ek) = packet.KeySize (CipherFunc ek)));
        [ done | ]. exfalso. apply Hsz. congruence.
Qed.

Lemma newSessionKeyFromEncrypted_accepts_witness :
  (∃ sk, newSessionKeyFromEncrypted (map_to_list symKeyAlgos) (fun _ => "7")
           {| CipherFunc := packet.CipherAES128; Version := 3;
              ek_Key := replicate 16 x2a |} = inl sk)
  ↔ (∃ k, symKeyAlgos !! k = Some packet.CipherAES128)
    ∧ length (replicate 16 x2a) = packet.KeySize packet.CipherAES128.
Proof.
  apply (newSessionKeyFromEncrypted_accepts (map_to_list symKeyAlgos) (fun _ => "7")
           {| CipherFunc := packet.CipherAES128; Version := 3;
              ek_Key := replicate 16 x2a |}).
  - unfold iteration_order. reflexivity.
  - simpl. lia.
Defined.

(** X6. A key packet of version 6 gives a session key exactly when its key
    is not empty, whatever its cipher code and the size of the key; the
    session key is in version-6 mode and resolves to the cipher code zero.
    An empty key is refused as an empty session key. *)
Theorem newSessionKeyFromEncrypted_v6 (order : list (string * packet.CipherFunction))
    (fmt_v : packet.CipherFunction → string) (ek : EncryptedKey) :
  Version ek = 6 →
  ((∃ sk, newSessionKeyFromEncrypted order fmt_v ek = inl sk) ↔ ek_Key ek ≠ [])
  ∧ (∀ sk, newSessionKeyFromEncrypted order fmt_v ek = inl sk →
     V6 sk = true ∧ Key sk = ek_Key ek ∧ GetCipherFunc sk = (0, None))
  ∧ (ek_Key ek = [] →
     newSessionKeyFromEncrypted order fmt_v ek
     = inr (errors_Wrap (errors_New "empty session key")
              "gopenpgp: unable to decrypt session key")).
Proof.
  intros Hv. unfold newSessionKeyFromEncrypted, checkSize, GetCipherFunc. simpl.
  rewrite bool_decide_eq_true_2 by exact Hv.
  destruct (decide (_ ∧ _)) as [[_ Hlt] | _]; [ lia | ].
  destruct (ek_Key ek) as [| b rest]; simpl.
  - split; [ split; [ intros [sk H]; discriminate H | done ] | ].
    split; [ intros sk H; discriminate H | done ].
  - split; [ split; [ done | eauto ] | ].
    split; [ | done ]. intros sk [= <-]. done.
Qed.

Lemma newSessionKeyFromEncrypted_v6_witness :
  newSessionKeyFromEncrypted (map_to_list symKeyAlgos) (fun _ => "0")
    {| CipherFunc := 0; Version := 6; ek_Key := [] |}
  = inr (errors_Wrap (errors_New "empty session key")
           "gopenpgp: unable to decrypt session key").
Proof.
  refine (proj2 (proj2 (newSessionKeyFromEncrypted_v6 (map_to_list symKeyAlgos)
            (fun _ => "0") {| CipherFunc := 0; Version := 6; ek_Key := [] |} _)) _);
    reflexivity.
Defined.

(** X7. A session key rebuilt from a key packet has passed [checkSize] and
    holds the packet's key; outside version-6 mode it resolves to the
    packet's own cipher code, of which the key has the size. *)
Theorem newSessionKeyFromEncrypted_checked (order : list (string * packet.CipherFunction))
    (fmt_v : packet.CipherFunction → string) (ek : EncryptedKey) (sk : SessionKey) :
  iteration_order order →
  newSessionKeyFromEncrypted order fmt_v ek = inl sk →
  checkSize sk = None
  ∧ Key sk = ek_Key ek
  ∧ V6 sk = bool_decide (Version ek = 6)
  ∧ (V6 sk = false →
     GetCipherFunc sk = (CipherFunc ek, None)
     ∧ length (Key sk) = packet.KeySize (CipherFunc ek)).
Proof.
  intros Hord. unfold newSessionKeyFromEncrypted.
  destruct (decide (_ ∧ _)) as [| Hgo]; [ done | ].
  destruct (checkSize _) as [err |] eqn:Hcheck; [ done | ].
  intros [= <-]. split; [ exact Hcheck | ]. split; [ done | ]. split; [ done | ].
  simpl. intros Hv6. revert Hcheck. unfold checkSize, GetCipherFunc. simpl.
  rewrite Hv6.
  destruct (range_symKeyAlgos_cases order (CipherFunc ek) Hord)
    as [[Heq _] | [_ Hfound]].
  - rewrite Heq, empty_not_in_table. done.
  - rewrite Hfound.
    destruct (decide (packet.KeySize (CipherFunc ek) ≠ length (ek_Key ek))) as [| Hsz];
      [ done | ].
    intros _. split; [ done | ].
    destruct (decide (length (ek_Key ek) = packet.KeySize (CipherFunc ek))); [ done | ].
    exfalso. apply Hsz. congruence.
Qed.

Lemma newSessionKeyFromEncrypted_checked_witness :
  checkSize {| V6 := false; Key := replicate 24 x2a; Algo := constants.AES192 |} = None
  ∧ Key {| V6 := false; Key := replicate 24 x2a; Algo := constants.AES192 |}
    = replicate 24 x2a
  ∧ V6 {| V6 := false; Key := replicate 24 x2a; Algo := constants.AES192 |}
    = bool_decide (3 = 6)
  ∧ (V6 {| V6 := false; Key := replicate 24 x2a; Algo := constants.AES192 |} = false →
     GetCipherFunc {| V6 := false; Key := replicate 24 x2a; Algo := constants.AES192 |}
     = (packet.CipherAES192, None)
     ∧ length (Key {| V6 := false; Key := replicate 24 x2a; Algo := constants.AES192 |})
       = packet.KeySize packet.CipherAES192).
Proof.
  apply (newSessionKeyFromEncrypted_checked (map_to_list symKeyAlgos) (fun _ => "8")
           {| CipherFunc := packet.CipherAES192; Version := 3;
              ek_Key := replicate 24 x2a |}).
  - unfold iteration_order. reflexivity.
  - vm_compute. reflexivity.
Defined.

(** X8. A cipher code that is not in the table is refused by a key packet
    of a version below 6 as an unsupported cipher function, before any
    check of the key, and by one of a version above 6 as an unknown
    algorithm, through [checkSize]. *)
Theorem newSessionKeyFromEncrypted_unknown_cipher
    (order : list (string * packet.CipherFunction))
    (fmt_v : packet.CipherFunction → string) (ek : EncryptedKey) :
  iteration_order order →
  (∀ k, symKeyAlgos !! k ≠ Some (CipherFunc ek)) →
  (Version ek < 6 →
   newSessionKeyFromEncrypted order fmt_v ek
   = inr (errors_New ("gopenpgp: unsupported cipher function: "
                        +:+ fmt_v (CipherFunc ek))))
  ∧ (6 < Version ek →
     newSessionKeyFromEncrypted order fmt_v ek
     = inr (errors_Wrap (errors_New "unknown symmetric key algorithm")
              "gopenpgp: unable to decrypt session key")).
Proof.
  intros Hord Hmiss. unfold newSessionKeyFromEncrypted, checkSize. simpl.
  destruct (range_symKeyAlgos_cases order (CipherFunc ek) Hord)
    as [[Heq _] | [_ Hfound]]; [ | destruct (Hmiss _ Hfound) ].
  rewrite Heq. split; intros Hv.
  - destruct (decide (_ ∧ _)) as [| Hn]; [ reflexivity | ].
    exfalso. apply Hn. done.
  - destruct (decide (_ ∧ _)) as [[_ Hlt] | _]; [ lia | ].
    rewrite bool_decide_eq_false_2 by lia.
    rewrite empty_not_in_table. reflexivity.
Qed.

Lemma newSessionKeyFromEncrypted_unknown_cipher_witness :
  newSessionKeyFromEncrypted (map_to_list symKeyAlgos) (fun _ => "1")
    {| CipherFunc := 1; Version := 3; ek_Key := replicate 16 x2a |}
  = inr (errors_New "gopenpgp: unsupported cipher function: 1").
Proof.
  refine (proj1 (newSessionKeyFromEncrypted_unknown_cipher (map_to_list symKeyAlgos)
            (fun _ => "1")
            {| CipherFunc := 1; Version := 3; ek_Key := replicate 16 x2a |} _ _) _).
  - unfold iteration_order. reflexivity.
  - intros k Hk%table_code_known. rewrite !elem_of_cons, elem_of_nil in Hk.
    simpl in Hk. lia.
  - simpl. lia.
Defined.

(** ** Identifiers, codes and sizes *)

(** X9. A session key that passes [checkSize] resolves to a cipher without
    error: outside version-6 mode the key has the key size of that cipher,
    and in version-6 mode the cipher code is zero. *)
Theorem checkSize_resolves (sk : SessionKey) :
  checkSize sk = None →
  (GetCipherFunc sk).2 = None
  ∧ (V6 sk = false → packet.KeySize (GetCipherFunc sk).1 = length (Key sk))
  ∧ (V6 sk = true → (GetCipherFunc sk).1 = 0).
Proof.
  unfold checkSize, GetCipherFunc. destruct (V6 sk).
  - intros _. repeat split; done.
  - destruct (symKeyAlgos !! Algo sk) as [cf |]; [ | done ].
    destruct (decide (packet.KeySize cf ≠ length (Key sk))) as [| Hsz]; [ done | ].
    intros _. split; [ done | ]. split; [ | done ].
    intros _. simpl.
    destruct (decide (packet.KeySize cf = length (Key sk))); [ done | contradiction ].
Qed.

Lemma checkSize_resolves_witness :
  (GetCipherFunc zero_key_AES256).2 = None
  ∧ (V6 zero_key_AES256 = false →
     packet.KeySize (GetCipherFunc zero_key_AES256).1 = length (Key zero_key_AES256))
  ∧ (V6 zero_key_AES256 = true → (GetCipherFunc zero_key_AES256).1 = 0).
Proof.
  apply (checkSize_resolves zero_key_AES256). vm_compute. reflexivity.
Defined.

(** X10. From an identifier of the table to its code and back: [getAlgo]
    returns the identifier itself, except for the two aliases of
    triple-DES, for which it returns one of the two, depending on the order
    in which the table is visited. *)
Theorem getAlgo_of_table_code (order : list (string * packet.CipherFunction))
    (algo : string) (cipher : packet.CipherFunction) :
  iteration_order order →
  symKeyAlgos !! algo = Some cipher →
  getAlgo order cipher = algo
  ∨ (cipher = packet.Cipher3DES
     ∧ algo ∈ [constants.ThreeDES; constants.TripleDES]
     ∧ getAlgo order cipher ∈ [constants.ThreeDES; constants.TripleDES]).
Proof.
  intros Hord Halgo. unfold getAlgo.
  destruct (decide (cipher = 0)) as [-> | _].
  { apply table_code_known in Halgo. rewrite !elem_of_cons, elem_of_nil in Halgo.
    destruct Halgo as [H | [H | [H | [H | [H | []]]]]]; discriminate H. }
  assert (Hback : symKeyAlgos !! range_symKeyAlgos order cipher constants.AES256
                  = Some cipher).
  { apply (iteration_order_lookup order _ _ Hord).
    apply range_symKeyAlgos_found with algo.
    apply (iteration_order_lookup order _ _ Hord). exact Halgo. }
  revert Hback. generalize (range_symKeyAlgos order cipher constants.AES256).
  intros back Hback.
  apply symKeyAlgos_lookup in Halgo. apply symKeyAlgos_lookup in Hback.
  unfold table_entries in *. rewrite !elem_of_cons, elem_of_nil in Halgo, Hback.
  destruct Halgo as [[= -> ->] | [[= -> ->] | [[= -> ->] | [[= -> ->] | [[= -> ->]
                    | [[= -> ->] | []]]]]]];
    destruct Hback as [[= ->] | [[= ->] | [[= ->] | [[= ->] | [[= ->] | [[= ->] | []]]]]]];
    first [ left; reflexivity
          | right; split; [ reflexivity | split; rewrite !elem_of_cons; auto ] ].
Qed.

Lemma getAlgo_of_table_code_witness :
  getAlgo (map_to_list symKeyAlgos) packet.CipherCAST5 = constants.CAST5
  ∨ (packet.CipherCAST5 = packet.Cipher3DES
     ∧ constants.CAST5 ∈ [constants.ThreeDES; constants.TripleDES]
     ∧ getAlgo (map_to_list symKeyAlgos) packet.CipherCAST5
       ∈ [constants.ThreeDES; constants.TripleDES]).
Proof.
  apply (getAlgo_of_table_code (map_to_list symKeyAlgos) constants.CAST5
           packet.CipherCAST5).
  - unfold iteration_order. reflexivity.
  - vm_compute. reflexivity.
Defined.

(** X11. A session key built by [NewSessionKeyFromToken] on the identifier
    that [getAlgo] gives for a cipher code always resolves to a cipher: it
    is in version-6 mode exactly for the code zero, it resolves to the code
    itself when the code is zero or in the table, and to AES-256 for any
    other code. *)
Theorem token_of_getAlgo_resolves (order : list (string * packet.CipherFunction))
    (token : list byte) (cipher : packet.CipherFunction) :
  iteration_order order →
  let sk := NewSessionKeyFromToken token (getAlgo order cipher) in
  (V6 sk = true ↔ cipher = 0)
  ∧ (GetCipherFunc sk).2 = None
  ∧ (cipher = 0 ∨ (∃ k, symKeyAlgos !! k = Some cipher) →
     (GetCipherFunc sk).1 = cipher)
  ∧ (cipher ≠ 0 → (∀ k, symKeyAlgos !! k ≠ Some cipher) →
     (GetCipherFunc sk).1 = packet.CipherAES256).
Proof.
  intros Hord. unfold NewSessionKeyFromToken, GetCipherFunc, getAlgo. simpl.
  destruct (decide (cipher = 0)) as [-> | Hnz].
  { rewrite bool_decide_eq_true_2 by reflexivity.
    repeat split; done. }
  destruct (range_symKeyAlgos_result order cipher constants.AES256)
    as [[Heq Hmiss] | Hin].
  - rewrite Heq. simpl. repeat split; try done.
    + intros [H | [k Hk]]; [ done | ]. exfalso. apply (Hmiss k).
      apply (iteration_order_lookup order _ _ Hord). exact Hk.
  - apply (iteration_order_lookup order _ _ Hord) in Hin.
    assert (Hne : range_symKeyAlgos order cipher constants.AES256 ≠ "").
    { intros Heq. rewrite Heq, empty_not_in_table in Hin. discriminate Hin. }
    rewrite bool_decide_eq_false_2 by exact Hne. rewrite Hin. simpl.
    repeat split; try done.
    intros _ Hmiss. destruct (Hmiss _ Hin).
Qed.

Lemma token_of_getAlgo_resolves_witness :
  (GetCipherFunc (NewSessionKeyFromToken hello (getAlgo (map_to_list symKeyAlgos) 42))).1
  = packet.CipherAES256.
Proof.
  refine (proj2 (proj2 (proj2 (token_of_getAlgo_resolves (map_to_list symKeyAlgos)
            hello 42 _))) _ _).
  - unfold iteration_order. reflexivity.
  - lia.
  - intros k Hk%table_code_known. rewrite !elem_of_cons, elem_of_nil in Hk. lia.
Defined.

(** ** Decryption and the drain of the body *)



(** X13. A drain of the integrity-checking reader by [ReadFrom]: it ends
    without error only when the inner reader reached [io.EOF] and [Close]
    was entered, once; and when the inner reader did not reach [io.EOF],
    [Close] was not entered and the error is the structural one. *)
Theorem checkReader_drain_outcomes {W : Type} (cr : checkReader W) (fuel : nat) :
  ∀ (buf : list byte) (w : W) (c : counters) (data : list byte) (e : option error)
    (w' : W) (c' : counters),
    ReadFrom (checkReader_Read (observed cr)) fuel buf (w, c) = Some ((data, e), (w', c')) →
    (e = None → closes c' = S (closes c) ∧ eofs_seen c' = S (eofs_seen c))
    ∧ (eofs_seen c' = eofs_seen c →
       closes c' = closes c ∧ e = Some (StructuralError "parsing error")).
Proof.
  induction fuel as [| fuel IH]; intros buf w c data e w' c'; simpl; [ done | ].
  unfold checkReader_Read at 1. simpl.
  destruct (body_Read cr w MinRead) as [[n e1] w1]. simpl.
  destruct e1 as [[] |]; simpl.
  - destruct (decrypted_Close cr w1) as [[[] |] w2]; simpl;
      intros [= <- <- <- <-]; simpl; split; (done || lia).
  - intros [= <- <- <- <-]. split; done.
  - intros [= <- <- <- <-]. split; done.
  - intros [= <- <- <- <-]. split; done.
  - intros [= <- <- <- <-]. split; done.
  - apply IH.
Qed.

Lemma checkReader_drain_outcomes_witness :
  closes {| eofs_seen := 1; closes := 1 |} = S (closes no_calls)
  ∧ eofs_seen {| eofs_seen := 1; closes := 1 |} = S (eofs_seen no_calls).
Proof.
  refine (proj1 (checkReader_drain_outcomes sk_checkReader 2 [] 
            {| ds_literal := {| lit_IsUTF8 := false; FileName := ""; Time := 0 |};
               ds_unread := hello; ds_tag_ok := true |}
            no_calls hello None drained_body {| eofs_seen := 1; closes := 1 |} _) _);
    reflexivity.
Defined.

(** X14. A drain of the integrity-checking reader that ends without error
    ends in the store that [Close] left, after an inner read that reported
    [io.EOF]; [Close] returned no error, or [io.EOF] itself: a finalisation
    that fails with [io.EOF] is taken for the end of the stream. *)
Theorem checkReader_drain_success {W : Type} (cr : checkReader W) (fuel : nat) :
  ∀ (buf : list byte) (w : W) (data : list byte) (w' : W),
    ReadFrom (checkReader_Read cr) fuel buf w = Some ((data, None), w') →
    ∃ (w0 w1 : W) (n : list byte),
      body_Read cr w0 MinRead = ((n, Some io_EOF), w1)
      ∧ (decrypted_Close cr w1 = (None, w') ∨ decrypted_Close cr w1 = (Some io_EOF, w')).
Proof.
  induction fuel as [| fuel IH]; intros buf w data w'; simpl; [ done | ].
  unfold checkReader_Read at 1.
  destruct (body_Read cr w MinRead) as [[n e1] w1] eqn:Hbody.
  destruct e1 as [[] |]; try done.
  - destruct (decrypted_Close cr w1) as [[[] |] w2] eqn:Hclose; try done;
      intros [= _ <-]; exists w, w1, n; auto.
  - apply IH.
Qed.

Lemma checkReader_drain_success_witness :
  ∃ (w0 w1 : unit) (n : list byte),
    body_Read eof_closing_reader w0 MinRead = ((n, Some io_EOF), w1)
    ∧ (decrypted_Close eof_closing_reader w1 = (None, tt)
       ∨ decrypted_Close eof_closing_reader w1 = (Some io_EOF, tt)).
Proof.
  apply (checkReader_drain_success eof_closing_reader 1 [] tt [] tt). reflexivity.
Defined.

(** ** Encryption *)

(** X15. Encryption without a signing key ring never uses the signing
    writer, and encryption with one never writes to the encryption writer
    itself: the results do not depend on those methods. *)
Theorem encrypt_writers_used (E : EncryptPipeline) (sk : SessionKey)
    (message : PlainMessage) (kr : KeyRing) (signingContext : option SigningContext)
    (write : Writers E → list byte → option error * Writers E)
    (close : Writers E → option error * Writers E) :
  Encrypt (with_signWriter E write close) sk message = Encrypt E sk message
  ∧ EncryptWithCompression (with_signWriter E write close) sk message
    = EncryptWithCompression E sk message
  ∧ EncryptAndSign (with_encryptWrite E write) sk message (Some kr)
    = EncryptAndSign E sk message (Some kr)
  ∧ EncryptAndSignWithContext (with_encryptWrite E write) sk message (Some kr)
      signingContext
    = EncryptAndSignWithContext E sk message (Some kr) signingContext.
Proof.
  unfold Encrypt, EncryptWithCompression, EncryptAndSign, EncryptAndSignWithContext,
    encryptWithSessionKey.
  repeat split; simpl;
    destruct (encryptStreamWithSessionKey E _ _ _ _ _) as [w0 | err]; reflexivity.
Qed.

(** ** The public calls of the verification handle *)

Lemma verifyingReader_samples (C : Collaborators) (vh : verifyHandle)
    (message : Reader) (samples : nat) :
  (verifyingReader C vh message samples).2 = S samples.
Proof. unfold verifyingReader. destruct (ReadMessage C _ _ _); reflexivity. Qed.

Lemma vh_verifyingDetachedReader_samples (C : Collaborators) (vh : verifyHandle)
    (data signature : Reader) (samples : nat) :
  (vh_verifyingDetachedReader C vh data signature samples).2 = S samples.
Proof.
  unfold vh_verifyingDetachedReader, verifyingDetachedReader.
  destruct (VerifyDetachedSignatureReader C _ _ _ _); reflexivity.
Qed.

(** A call of [VerifyingReader] makes one sampling, or none and returns an
    error of the armor decoder. *)
Lemma VerifyingReader_samples (C : Collaborators) (vh : verifyHandle)
    (detachedData : option Reader) (signatureMessage : Reader) (encoding : Z)
    (samples : nat) :
  let call := VerifyingReader C vh detachedData signatureMessage encoding samples in
  (call.2 = samples ∨ call.2 = S samples)
  ∧ (call.2 = samples →
     ∃ err, call.1 = inr (errors_Wrap err "gopenpgp: unarmor failed")).
Proof.
  unfold VerifyingReader.
  destruct (unarmorInput C encoding signatureMessage) as [inner armored].
  destruct armored; [ destruct (armor_Decode C inner) as [body | err] | ].
  - destruct detachedData as [d |]; simpl;
      [ rewrite vh_verifyingDetachedReader_samples | rewrite verifyingReader_samples ];
      (split; [ auto | lia ]).
  - simpl. split; [ auto | ]. intros _. eauto.
  - destruct detachedData as [d |]; simpl;
      [ rewrite vh_verifyingDetachedReader_samples | rewrite verifyingReader_samples ];
      (split; [ auto | lia ]).
Qed.

(** X16. [VerifyingReader] samples the clock in every call but one that
    fails to unarmor: such a call returns the wrapped error of the armor
    decoder without a sampling, and builds no reader; any other call makes
    exactly one sampling. *)
Theorem VerifyingReader_unarmor_first (C : Collaborators) (vh : verifyHandle)
    (detachedData : option Reader) (signatureMessage inner : Reader) (armored : bool)
    (encoding : Z) (samples : nat) :
  unarmorInput C encoding signatureMessage = (inner, armored) →
  let call := VerifyingReader C vh detachedData signatureMessage encoding samples in
  (∀ err, armored = true → armor_Decode C inner = inr err →
     call = (inr (errors_Wrap err "gopenpgp: unarmor failed"), samples))
  ∧ (call.2 = samples ∨ call.2 = S samples)
  ∧ (call.2 = samples →
     armored = true
     ∧ ∃ err, armor_Decode C inner = inr err
              ∧ call.1 = inr (errors_Wrap err "gopenpgp: unarmor failed")).
Proof.
  intros Hun. unfold VerifyingReader. rewrite Hun.
  assert (Hinline : ∀ m, (verifyingReader C vh m samples).2 = S samples).
  { intros m. unfold verifyingReader. destruct (ReadMessage C _ _ _); reflexivity. }
  assert (Hdet : ∀ d m, (vh_verifyingDetachedReader C vh d m samples).2 = S samples).
  { intros d m. unfold vh_verifyingDetachedReader, verifyingDetachedReader.
    destruct (VerifyDetachedSignatureReader C _ _ _ _); reflexivity. }
  destruct armored.
  - destruct (armor_Decode C inner) as [body | err].
    + destruct detachedData as [d |]; simpl;
        [ rewrite Hdet | rewrite Hinline ];
        (split; [ intros ? _ [=] | split; [ auto | lia ] ]).
    + simpl. split; [ intros ? _ [= <-]; reflexivity | ].
      split; [ auto | ]. intros _. split; [ reflexivity | ]. eauto.
  - destruct detachedData as [d |]; simpl;
      [ rewrite Hdet | rewrite Hinline ];
      (split; [ intros ? [=] | split; [ auto | lia ] ]).
Qed.

Lemma VerifyingReader_unarmor_first_witness :
  VerifyingReader broken_armor_engine (defaultVerifyHandle ticking_clock) None
    (bytes_NewReader hello) 0 0
  = (inr (errors_Wrap (EngineError "EOF") "gopenpgp: unarmor failed"), 0%nat).
Proof.
  refine (proj1 (VerifyingReader_unarmor_first broken_armor_engine
            (defaultVerifyHandle ticking_clock) None (bytes_NewReader hello)
            (bytes_NewReader hello) true 0 0 _) (EngineError "EOF") _ _); reflexivity.
Defined.

(** X17. [VerifyDetached] and [VerifyInline] sample the clock once, or not
    at all; a call that made no sampling returned an error of the armor
    decoder, wrapped twice. *)
Theorem public_calls_sample_once (C : Collaborators) (M : VerifyInlineCall.InlineMethods)
    (vh : verifyHandle) (fuel : nat) (data signature message : list byte)
    (encoding : Z) (samples : nat) :
  let detached := VerifyDetached C vh fuel data signature encoding samples in
  let inline := VerifyInlineCall.VerifyInline C M vh message encoding samples in
  (detached.2 = samples ∨ detached.2 = S samples)
  ∧ (inline.2 = samples ∨ inline.2 = S samples)
  ∧ (detached.2 = samples →
     ∃ err, detached.1
            = Some (inr (errors_Wrap (errors_Wrap err "gopenpgp: unarmor failed")
                           "gopenpgp: verifying signature failed")))
  ∧ (inline.2 = samples →
     ∃ err, inline.1
            = inr (errors_Wrap (errors_Wrap err "gopenpgp: unarmor failed")
                     "gopenpgp: verifying signature failed")).
Proof.
  simpl.
  unfold VerifyDetached, VerifyInlineCall.VerifyInline.
  pose proof (VerifyingReader_samples C vh (Some (bytes_NewReader data))
                (bytes_NewReader signature) encoding samples) as Hd.
  pose proof (VerifyingReader_samples C vh None (bytes_NewReader message)
                encoding samples) as Hi.
  simpl in Hd, Hi.
  destruct (VerifyingReader C vh (Some (bytes_NewReader data)) _ encoding samples)
    as [[rd | ed] sd].
  - destruct (VerifyingReader C vh None _ encoding samples) as [[ri | ei] si].
    + destruct (io_Copy_Discard _ fuel rd) as [[[err |] r1] |];
        destruct (VerifyInlineCall.VerifyDataReader_ReadAll M ri) as [[bytes | err2] r2];
        try destruct (VerifySignature C r2);
        simpl in *; (split; [ tauto | split; [ tauto | split; intros H;
          [ destruct Hd as [_ Hd]; destruct (Hd H) as [? [=]]
          | destruct Hi as [_ Hi]; destruct (Hi H) as [? [=]] ] ] ]).
    + destruct (io_Copy_Discard _ fuel rd) as [[[err |] r1] |];
        simpl in *; (split; [ tauto | split; [ tauto | split; intros H;
          [ destruct Hd as [_ Hd]; destruct (Hd H) as [? [=]]
          | destruct Hi as [_ Hi]; destruct (Hi H) as [? [= ->]]; eauto ] ] ]).
  - destruct (VerifyingReader C vh None _ encoding samples) as [[ri | ei] si].
    + destruct (VerifyInlineCall.VerifyDataReader_ReadAll M ri) as [[bytes | err2] r2];
        try destruct (VerifySignature C r2);
        simpl in *; (split; [ tauto | split; [ tauto | split; intros H;
          [ destruct Hd as [_ Hd]; destruct (Hd H) as [? [= ->]]; eauto
          | destruct Hi as [_ Hi]; destruct (Hi H) as [? [=]] ] ] ]).
    + simpl in *. split; [ tauto | split; [ tauto | split; intros H;
          [ destruct Hd as [_ Hd]; destruct (Hd H) as [? [= ->]]; eauto
          | destruct Hi as [_ Hi]; destruct (Hi H) as [? [= ->]]; eauto ] ] ].
Qed.

(** X18. [verifyCleartext] samples the clock only for a message that
    decodes and whose signature section reads, and then exactly once; a
    message that does not decode, or whose signature cannot be read, is
    refused with an error before any sampling. *)
Theorem verifyCleartext_samples (C : Collaborators) (vh : verifyHandle) (fuel : nat)
    (armored : list byte) (samples : nat) :
  let call := verifyCleartext C vh fuel armored samples in
  (clearsign_Decode C armored = None →
   call = (Some (Returns (inr (errors_New
                   "gopenpgp: not able to parse cleartext message"))), samples))
  ∧ (∀ block err,
       clearsign_Decode C armored = Some block →
       io_ReadAll C (ArmoredSignature_Body block) = inr err →
       call = (Some (Returns (inr (errors_Wrap err
                       "gopenpgp: signature not parsable in cleartext"))), samples))
  ∧ (∀ block signature,
       clearsign_Decode C armored = Some block →
       io_ReadAll C (ArmoredSignature_Body block) = inl signature →
       call.2 = S samples)
  ∧ VerifyCleartext C vh fuel armored samples = call.
Proof.
  simpl. unfold VerifyCleartext, verifyCleartext.
  split; [ | split; [ | split ] ].
  - intros ->. reflexivity.
  - intros block err -> ->. reflexivity.
  - intros block signature -> ->.
    unfold verifyDetachedSignature.
    pose proof (vh_verifyingDetachedReader_samples C vh (bytes_NewReader (Bytes block))
                  (bytes_NewReader signature) samples) as Hs.
    destruct (vh_verifyingDetachedReader C vh _ _ samples) as [[reader | err] s].
    + simpl in Hs. subst s.
      destruct (io_Copy_Discard _ fuel reader) as [[[err |] r1] |]; try reflexivity.
      destruct (VerifySignature C r1); [ | reflexivity ].
      destruct (slice_to _ _); reflexivity.
    + simpl in Hs. subst s. reflexivity.
  - reflexivity.
Qed.

Lemma verifyCleartext_samples_witness :
  (verifyCleartext stub_engine (defaultVerifyHandle ticking_clock) 1 (hello ++ [lf]) 0).2
  = 1%nat.
Proof.
  refine (proj1 (proj2 (proj2 (verifyCleartext_samples stub_engine
            (defaultVerifyHandle ticking_clock) 1 (hello ++ [lf]) 0)))
            {| Plaintext := hello ++ [lf]; Bytes := hello ++ [lf];
               ArmoredSignature_Body := bytes_NewReader [] |} [] _ _); reflexivity.
Defined.





